(** * ReliableRouter: reliable delivery on top of the flooding and next-hop routers

    A shallow embedding of [src/mesh/ReliableRouter.cpp] (send,
    shouldFilterReceived, sniffReceived).  The router's mutable state is the
    table of pending retransmissions; calls into collaborators (the two
    delegated routers, the routing module that builds acks, the node-info
    module) are recorded, in order, in a trace. *)

From stdpp Require Import gmap list.
From Stdlib Require Import ZArith Lia.

Local Open Scope Z_scope.

(** ** Machine integers *)

Definition uint8 (z : Z) : Z := z mod 2 ^ 8.
Definition uint32 (z : Z) : Z := z mod 2 ^ 32.

Definition NodeNum := Z.
Definition PacketId := Z.
Definition ErrorCode := Z.

(** Modelled from the spec: MeshTypes.h is not among the sources; the
    broadcast constant is the all-ones 32-bit node number. *)
Definition NODENUM_BROADCAST : NodeNum := 2 ^ 32 - 1.

(** ** Packets *)

(** Modelled from the spec: the routing-error taxonomy of section 7 (the
    enumeration itself is generated from the protobuf definitions). *)
Inductive meshtastic_Routing_Error : Type :=
| meshtastic_Routing_Error_NONE
| meshtastic_Routing_Error_MAX_RETRANSMIT
| meshtastic_Routing_Error_NO_CHANNEL
| meshtastic_Routing_Error_PKI_UNKNOWN_PUBKEY.

Global Instance meshtastic_Routing_Error_eq_dec : EqDecision meshtastic_Routing_Error.
Proof. solve_decision. Defined.

Record meshtastic_Routing : Type := mkRouting {
  error_reason : meshtastic_Routing_Error
}.

(** The tag of the payload union: absent, decoded or still encrypted. *)
Inductive PayloadVariant : Type :=
| meshtastic_MeshPacket_none_tag
| meshtastic_MeshPacket_decoded_tag
| meshtastic_MeshPacket_encrypted_tag.

Global Instance PayloadVariant_eq_dec : EqDecision PayloadVariant.
Proof. solve_decision. Defined.

(** The fields of [meshtastic_MeshPacket] that the router reads or writes.
    [decoded_request_id] is what [p->decoded.request_id] reads. *)
Record meshtastic_MeshPacket : Type := mkPacket {
  from : NodeNum;
  to : NodeNum;
  id : PacketId;
  channel : Z;
  hop_limit : Z;
  hop_start : Z;
  want_ack : bool;
  which_payload_variant : PayloadVariant;
  decoded_request_id : PacketId
}.

Definition set_hop_limit (h : Z) (p : meshtastic_MeshPacket) : meshtastic_MeshPacket :=
  {| from := from p; to := to p; id := id p; channel := channel p;
     hop_limit := h; hop_start := hop_start p; want_ack := want_ack p;
     which_payload_variant := which_payload_variant p;
     decoded_request_id := decoded_request_id p |}.

(** [hop_limit] and [hop_start] are 8-bit fields. *)
Definition packet_wf (p : meshtastic_MeshPacket) : bool :=
  (0 <=? hop_limit p) && (hop_limit p <? 2 ^ 8) &&
  (0 <=? hop_start p) && (hop_start p <? 2 ^ 8).

(** ** The pending table *)

(** A key of the table, [GlobalPacketId]: the originating node and the packet id. *)
Abbreviation GlobalPacketId := (NodeNum * PacketId)%type.

Definition gp_id (k : GlobalPacketId) : PacketId := k.2.

Record PendingPacket : Type := mkPending {
  packet : meshtastic_MeshPacket;
  nextTxMsec : Z;
  numRetransmissions : Z
}.

(** [rec.nextTxMsec += t] on the 32-bit millisecond counter. *)
Definition add_nextTxMsec (t : Z) (rec : PendingPacket) : PendingPacket :=
  {| packet := packet rec;
     nextTxMsec := uint32 (nextTxMsec rec + t);
     numRetransmissions := numRetransmissions rec |}.

(** ** Calls into collaborators *)

Inductive Event : Type :=
| Call_sendAckNak (err : meshtastic_Routing_Error) (dest : NodeNum) (idFrom : PacketId)
    (chIndex : Z) (hops : option (Z * Z))
| Call_sendOurNodeInfo (dest : NodeNum) (wantReplies : bool) (chIndex : Z) (shorterTimeout : bool)
| Call_Router_send (p : meshtastic_MeshPacket)
| Call_FloodingRouter_send (p : meshtastic_MeshPacket)
| Call_NextHopRouter_send (p : meshtastic_MeshPacket)
| Call_FloodingRouter_shouldFilterReceived (p : meshtastic_MeshPacket)
| Call_NextHopRouter_shouldFilterReceived (p : meshtastic_MeshPacket)
| Call_FloodingRouter_sniffReceived (p : meshtastic_MeshPacket) (c : option meshtastic_Routing)
| Call_NextHopRouter_sniffReceived (p : meshtastic_MeshPacket) (c : option meshtastic_Routing).

Definition is_sendAckNak (e : Event) : bool :=
  match e with Call_sendAckNak _ _ _ _ _ => true | _ => false end.

Definition is_sendOurNodeInfo (e : Event) : bool :=
  match e with Call_sendOurNodeInfo _ _ _ _ => true | _ => false end.

Definition is_Router_send (e : Event) : bool :=
  match e with Call_Router_send _ => true | _ => false end.

(** What the router reads from its surroundings: configuration, the node
    database, the radio interface, the recency tracker and the answers of
    the delegated routers. *)
Record Collaborators : Type := mkCollaborators {
  (* getNodeNum() and nodeDB->getNodeNum() *)
  getNodeNum : NodeNum;
  config_lora_hop_limit : Z;
  getConfiguredOrDefaultHopLimit : Z -> Z;
  HOP_RELIABLE : Z;
  (* iface->getPacketTime(p) *)
  getPacketTime : meshtastic_MeshPacket -> Z;
  (* wasSeenRecently(p, withUpdate) *)
  wasSeenRecently : meshtastic_MeshPacket -> bool -> bool;
  (* MeshModule::currentReply != nullptr *)
  currentReply : bool;
  (* nodeDB->getMeshNode(n), as the size of user.public_key when the node is known *)
  getMeshNode : NodeNum -> option Z;
  owner_public_key_size : Z;
  getPrimaryIndex : Z;
  (* the first deadline and the retry budget given by startRetransmission *)
  initialNextTx : meshtastic_MeshPacket -> Z;
  NUM_RETRANSMISSIONS : Z;
  FloodingRouter_send_result : meshtastic_MeshPacket -> ErrorCode;
  NextHopRouter_send_result : meshtastic_MeshPacket -> ErrorCode;
  FloodingRouter_filter_result : meshtastic_MeshPacket -> bool;
  NextHopRouter_filter_result : meshtastic_MeshPacket -> bool
}.

(** ** The router's state and its monad *)

Record RouterState : Type := mkState {
  pending : gmap GlobalPacketId PendingPacket;
  trace : list Event
}.

Definition Router (A : Type) : Type := RouterState -> A * RouterState.

Definition ret {A : Type} (a : A) : Router A := fun s => (a, s).

Definition bind {A B : Type} (m : Router A) (k : A -> Router B) : Router B :=
  fun s => k (m s).1 (m s).2.

Notation "x <- m ;; k" := (bind m (fun x => k))
  (at level 100, m at next level, right associativity).
Notation "m ;; k" := (bind m (fun _ => k))
  (at level 100, right associativity).

Definition emit (e : Event) : Router unit :=
  fun s => (tt, {| pending := pending s; trace := trace s ++ [e] |}).

Definition modifyPending
    (f : gmap GlobalPacketId PendingPacket -> gmap GlobalPacketId PendingPacket) : Router unit :=
  fun s => (tt, {| pending := f (pending s); trace := trace s |}).

(** The table and the trace a computation ends with, and its result. *)
Definition exec {A : Type} (m : Router A) (s : RouterState) : RouterState := (m s).2.
Definition eval {A : Type} (m : Router A) (s : RouterState) : A := (m s).1.

(** The calls made by a computation: what it appended to the trace. *)
Definition calls {A : Type} (m : Router A) (s : RouterState) : list Event :=
  drop (length (trace s)) (trace (exec m s)).

(** ** The router *)

Section ReliableRouter.

Context (env : Collaborators).

(** Modelled from the spec: getFrom is declared outside the sources; a
    packet's logical origin is its [from] field, and this node for a locally
    originated packet, whose [from] is still zero. *)
Definition getFrom (p : meshtastic_MeshPacket) : NodeNum :=
  if from p =? 0 then getNodeNum env else from p.

(** The key built from a packet, [GlobalPacketId(p)]. *)
Definition GlobalPacketId_of (p : meshtastic_MeshPacket) : GlobalPacketId :=
  (getFrom p, id p).

(** [packetPool.allocCopy]: a fresh packet with the same contents. *)
Definition allocCopy (p : meshtastic_MeshPacket) : meshtastic_MeshPacket := p.

(** Modelled from the spec: startRetransmission is defined outside the
    sources.  Section 4.1: it takes the copy, computes the first retry
    deadline, and inserts the entry under the packet's GlobalPacketId with
    the configured retry budget. *)
Definition startRetransmission (p : meshtastic_MeshPacket) : Router unit :=
  modifyPending
    (insert (GlobalPacketId_of p)
       {| packet := p;
          nextTxMsec := initialNextTx env p;
          numRetransmissions := NUM_RETRANSMISSIONS env |}).

(** Modelled from the spec: findPendingPacket is defined outside the
    sources.  Section 4.1: returns the entry if present, else not found. *)
Definition findPendingPacket (key : GlobalPacketId) : Router (option PendingPacket) :=
  fun s => (pending s !! key, s).

(** Modelled from the spec: stopRetransmission is defined outside the
    sources.  Section 4.1: removes the entry if present, and does nothing
    if it is absent; the result says whether an entry was removed. *)
Definition stopRetransmission (key : GlobalPacketId) : Router bool :=
  fun s =>
    match pending s !! key with
    | Some _ => (true, {| pending := delete key (pending s); trace := trace s |})
    | None => (false, s)
    end.

(** The two-argument overload, [stopRetransmission(from, id)]. *)
Definition stopRetransmission_from_id (n : NodeNum) (i : PacketId) : Router bool :=
  stopRetransmission (n, i).

(** [sendAckNak(err, to, idFrom, chIndex, hopStart, hopLimit)]; [hops] is
    absent at the call that passes four arguments only. *)
Definition sendAckNak (err : meshtastic_Routing_Error) (dest : NodeNum) (idFrom : PacketId)
    (chIndex : Z) (hops : option (Z * Z)) : Router unit :=
  emit (Call_sendAckNak err dest idFrom chIndex hops).

Definition sendOurNodeInfo (dest : NodeNum) (wantReplies : bool) (chIndex : Z)
    (shorterTimeout : bool) : Router unit :=
  emit (Call_sendOurNodeInfo dest wantReplies chIndex shorterTimeout).

(** Modelled from the spec: the delegated routers are external collaborators
    (section 6); a call to one of them is recorded in the trace and answers
    with the collaborator's result, and has no access to the pending table. *)
Definition Router_send (p : meshtastic_MeshPacket) : Router unit :=
  emit (Call_Router_send p).

Definition FloodingRouter_send (p : meshtastic_MeshPacket) : Router ErrorCode :=
  emit (Call_FloodingRouter_send p) ;; ret (FloodingRouter_send_result env p).

Definition NextHopRouter_send (p : meshtastic_MeshPacket) : Router ErrorCode :=
  emit (Call_NextHopRouter_send p) ;; ret (NextHopRouter_send_result env p).

Definition FloodingRouter_shouldFilterReceived (p : meshtastic_MeshPacket) : Router bool :=
  emit (Call_FloodingRouter_shouldFilterReceived p) ;; ret (FloodingRouter_filter_result env p).

Definition NextHopRouter_shouldFilterReceived (p : meshtastic_MeshPacket) : Router bool :=
  emit (Call_NextHopRouter_shouldFilterReceived p) ;; ret (NextHopRouter_filter_result env p).

Definition FloodingRouter_sniffReceived (p : meshtastic_MeshPacket)
    (c : option meshtastic_Routing) : Router unit :=
  emit (Call_FloodingRouter_sniffReceived p c).

Definition NextHopRouter_sniffReceived (p : meshtastic_MeshPacket)
    (c : option meshtastic_Routing) : Router unit :=
  emit (Call_NextHopRouter_sniffReceived p c).

(** *** send *)

(** Lines 17-27: the hop-limit rewrite and the enrolment.  The packet is
    passed by pointer, so the result is the caller's packet after the call. *)
Definition send_enroll (p : meshtastic_MeshPacket) : Router meshtastic_MeshPacket :=
  if want_ack p then
    let p1 :=
      if hop_limit p =? 0
      then set_hop_limit (getConfiguredOrDefaultHopLimit env (config_lora_hop_limit env)) p
      else p in
    let copy := allocCopy p1 in
    startRetransmission copy ;;
    ret p1
  else ret p.

(** Lines 32-36: the loop over the table, an entry at a time. *)
Definition send_airtime_entry (p : meshtastic_MeshPacket) (i : GlobalPacketId)
    (rec : PendingPacket) : PendingPacket :=
  if negb (gp_id i =? id p) then add_nextTxMsec (getPacketTime env p) rec else rec.

Definition send_airtime (p : meshtastic_MeshPacket) : Router unit :=
  modifyPending (map_imap (fun i rec => Some (send_airtime_entry p i rec))).

(** Line 38. *)
Definition send_delegate (p : meshtastic_MeshPacket) : Router ErrorCode :=
  if to p =? NODENUM_BROADCAST then FloodingRouter_send p else NextHopRouter_send p.

(** [ReliableRouter::send]: the result pairs the error code with the caller's
    packet as send leaves it when it delegates. *)
Definition send (p : meshtastic_MeshPacket) : Router (ErrorCode * meshtastic_MeshPacket) :=
  p1 <- send_enroll p ;;
  send_airtime p1 ;;
  err <- send_delegate p1 ;;
  ret (err, p1).

(** *** shouldFilterReceived *)

(** Lines 44-65: someone is rebroadcasting for us. *)
Definition implicitAck (p : meshtastic_MeshPacket) : Router unit :=
  if from p =? getNodeNum env then
    let key := (getFrom p, id p) in
    old <- findPendingPacket key ;;
    match old with
    | Some o =>
        sendAckNak meshtastic_Routing_Error_NONE (getFrom p) (id p) (channel (packet o)) None ;;
        stopRetransmission key ;;
        ret tt
    | None => ret tt
    end
  else ret tt.

(** Lines 72-74: every entry of the table. *)
Definition received_airtime (p : meshtastic_MeshPacket) : Router unit :=
  modifyPending (fmap (add_nextTxMsec (getPacketTime env p))).

(** Line 80. *)
Definition isRepeated (p : meshtastic_MeshPacket) : bool :=
  if hop_start p =? 0 then hop_limit p =? HOP_RELIABLE env else hop_start p =? hop_limit p.

(** Line 81, the condition of the re-emission. *)
Definition shouldResend (p : meshtastic_MeshPacket) : bool :=
  wasSeenRecently env p false && isRepeated p && negb (currentReply env) &&
  negb (to p =? getNodeNum env).

(** Lines 83-85. *)
Definition resendImplicitAck (p : meshtastic_MeshPacket) : Router unit :=
  if shouldResend p then
    let tosend := allocCopy p in
    let tosend := set_hop_limit (uint8 (hop_limit tosend - 1)) tosend in
    Router_send tosend
  else ret tt.

Definition shouldFilterReceived (p : meshtastic_MeshPacket) : Router bool :=
  implicitAck p ;;
  received_airtime p ;;
  resendImplicitAck p ;;
  if to p =? NODENUM_BROADCAST
  then FloodingRouter_shouldFilterReceived p
  else NextHopRouter_shouldFilterReceived p.

(** *** sniffReceived *)

(** Is [c] present with this error reason? *)
Definition has_error (c : option meshtastic_Routing) (e : meshtastic_Routing_Error) : bool :=
  match c with
  | Some r => bool_decide (error_reason r = e)
  | None => false
  end.

(** Line 114: the node is not in the database, or it has no public key. *)
Definition public_key_unknown (n : NodeNum) : bool :=
  match getMeshNode env n with
  | None => true
  | Some size => size =? 0
  end.

(** Lines 108-123. *)
Definition sniff_want_ack (p : meshtastic_MeshPacket) : Router unit :=
  if want_ack p then
    if currentReply env then ret tt
    else if bool_decide (which_payload_variant p = meshtastic_MeshPacket_decoded_tag) then
      sendAckNak meshtastic_Routing_Error_NONE (getFrom p) (id p) (channel p)
        (Some (hop_start p, hop_limit p))
    else if bool_decide (which_payload_variant p = meshtastic_MeshPacket_encrypted_tag) &&
            (channel p =? 0) && public_key_unknown (from p) then
      sendAckNak meshtastic_Routing_Error_PKI_UNKNOWN_PUBKEY (getFrom p) (id p)
        (getPrimaryIndex env) (Some (hop_start p, hop_limit p))
    else
      sendAckNak meshtastic_Routing_Error_NO_CHANNEL (getFrom p) (id p)
        (getPrimaryIndex env) (Some (hop_start p, hop_limit p))
  else ret tt.

(** Lines 124-130. *)
Definition sniff_pki (p : meshtastic_MeshPacket) (c : option meshtastic_Routing) : Router unit :=
  if bool_decide (which_payload_variant p = meshtastic_MeshPacket_decoded_tag) &&
     has_error c meshtastic_Routing_Error_PKI_UNKNOWN_PUBKEY then
    if owner_public_key_size env =? 32 then
      sendOurNodeInfo (from p) false (channel p) true
    else ret tt
  else ret tt.

(** Line 132. *)
Definition ackId (p : meshtastic_MeshPacket) (c : option meshtastic_Routing) : PacketId :=
  if has_error c meshtastic_Routing_Error_NONE || bool_decide (c = None)
  then decoded_request_id p else 0.

(** Line 135. *)
Definition nakId (p : meshtastic_MeshPacket) (c : option meshtastic_Routing) : PacketId :=
  match c with
  | Some r =>
      if bool_decide (error_reason r <> meshtastic_Routing_Error_NONE)
      then decoded_request_id p else 0
  | None => 0
  end.

(** Lines 138-146. *)
Definition sniff_ack_nak (p : meshtastic_MeshPacket) (c : option meshtastic_Routing) : Router unit :=
  let a := ackId p c in
  let n := nakId p c in
  if negb (a =? 0) || negb (n =? 0) then
    if negb (a =? 0) then stopRetransmission_from_id (to p) a ;; ret tt
    else stopRetransmission_from_id (to p) n ;; ret tt
  else ret tt.

Definition sniffReceived (p : meshtastic_MeshPacket) (c : option meshtastic_Routing) : Router unit :=
  let ourNode := getNodeNum env in
  (if to p =? ourNode then
     sniff_want_ack p ;;
     sniff_pki p c ;;
     sniff_ack_nak p c
   else ret tt) ;;
  if to p =? NODENUM_BROADCAST
  then FloodingRouter_sniffReceived p c
  else NextHopRouter_sniffReceived p c.

End ReliableRouter.

(** ** The claims' vocabulary *)

(** The answer of the router that [send] delegates to. *)
Definition delegate_send_result (env : Collaborators) (p : meshtastic_MeshPacket) : ErrorCode :=
  if to p =? NODENUM_BROADCAST
  then FloodingRouter_send_result env p
  else NextHopRouter_send_result env p.

(** The call by which [send] delegates. *)
Definition delegate_send_call (p : meshtastic_MeshPacket) : Event :=
  if to p =? NODENUM_BROADCAST then Call_FloodingRouter_send p else Call_NextHopRouter_send p.

(** The call by which [shouldFilterReceived] delegates. *)
Definition delegate_filter_call (p : meshtastic_MeshPacket) : Event :=
  if to p =? NODENUM_BROADCAST
  then Call_FloodingRouter_shouldFilterReceived p
  else Call_NextHopRouter_shouldFilterReceived p.

(** The call by which [sniffReceived] delegates. *)
Definition delegate_sniff_call (p : meshtastic_MeshPacket) (c : option meshtastic_Routing) : Event :=
  if to p =? NODENUM_BROADCAST
  then Call_FloodingRouter_sniffReceived p c
  else Call_NextHopRouter_sniffReceived p c.

(** The hop limit that replaces a zero hop limit of a want_ack packet. *)
Definition default_hop_limit (env : Collaborators) : Z :=
  getConfiguredOrDefaultHopLimit env (config_lora_hop_limit env).

(** The airtime adjustment of [send] in the specification's words: every
    entry other than the one just created for the packet is moved by the
    packet's airtime, that one is not, and nothing else changes.  [before]
    is the table once the packet is enrolled, [after] the table [send]
    leaves. *)
Definition send_airtime_as_specified (env : Collaborators) (p : meshtastic_MeshPacket)
    (before after : gmap GlobalPacketId PendingPacket) : Prop :=
  forall (k : GlobalPacketId) (rec : PendingPacket),
    before !! k = Some rec ->
    after !! k =
      Some (if want_ack p && bool_decide (k = GlobalPacketId_of env p) then rec
            else add_nextTxMsec (getPacketTime env p) rec).

(** "Repeated" in the specification's words: hop-start unset and hop-limit
    equal to the full relay budget, or hop-start equal to hop-limit. *)
Definition isRepeated_as_specified (env : Collaborators) (p : meshtastic_MeshPacket) : bool :=
  ((hop_start p =? 0) && (hop_limit p =? HOP_RELIABLE env)) || (hop_start p =? hop_limit p).

(** The re-emission of [shouldFilterReceived] in the specification's words. *)
Definition resend_as_specified (env : Collaborators) (p : meshtastic_MeshPacket)
    (s : RouterState) : Prop :=
  filter (fun e => is_Router_send e = true) (calls (shouldFilterReceived env p) s) =
    if isRepeated_as_specified env p && wasSeenRecently env p false &&
       negb (currentReply env) && negb (to p =? getNodeNum env)
    then [Call_Router_send
            {| from := from p; to := to p; id := id p; channel := channel p;
               hop_limit := uint8 (hop_limit p - 1); hop_start := hop_start p; want_ack := want_ack p;
               which_payload_variant := which_payload_variant p;
               decoded_request_id := decoded_request_id p |}]
    else [].

(** The classification of the want_ack reply in the specification's words:
    no error for a decoded payload; PKI_UNKNOWN_PUBKEY for an encrypted
    payload on the primary channel from a peer whose public key is unknown;
    NO_CHANNEL otherwise. *)
Definition ack_error_as_specified (env : Collaborators) (p : meshtastic_MeshPacket)
    : meshtastic_Routing_Error :=
  if bool_decide (which_payload_variant p = meshtastic_MeshPacket_decoded_tag) then
    meshtastic_Routing_Error_NONE
  else if bool_decide (which_payload_variant p = meshtastic_MeshPacket_encrypted_tag) &&
          (channel p =? getPrimaryIndex env) && public_key_unknown env (from p) then
    meshtastic_Routing_Error_PKI_UNKNOWN_PUBKEY
  else meshtastic_Routing_Error_NO_CHANNEL.

(** The want_ack reply of [sniffReceived] in the specification's words:
    exactly one ack, with the error of [ack_error_as_specified]. *)
Definition want_ack_reply_as_specified (env : Collaborators) (p : meshtastic_MeshPacket)
    (c : option meshtastic_Routing) (s : RouterState) : Prop :=
  to p = getNodeNum env -> want_ack p = true -> currentReply env = false ->
  exists (dest : NodeNum) (idFrom : PacketId) (chIndex : Z) (hops : option (Z * Z)),
    filter (fun e => is_sendAckNak e = true) (calls (sniffReceived env p c) s) =
      [Call_sendAckNak (ack_error_as_specified env p) dest idFrom chIndex hops].

(** ** Sample collaborators, packets and tables *)

Definition sample_env : Collaborators :=
  {| getNodeNum := 1;
     config_lora_hop_limit := 0;
     getConfiguredOrDefaultHopLimit := fun h => if h =? 0 then 3 else h;
     HOP_RELIABLE := 3;
     getPacketTime := fun _ => 100;
     wasSeenRecently := fun _ _ => true;
     currentReply := false;
     getMeshNode := fun _ => None;
     owner_public_key_size := 32;
     getPrimaryIndex := 0;
     initialNextTx := fun _ => 5000;
     NUM_RETRANSMISSIONS := 3;
     FloodingRouter_send_result := fun _ => 0;
     NextHopRouter_send_result := fun _ => 4;
     FloodingRouter_filter_result := fun _ => false;
     NextHopRouter_filter_result := fun _ => false |}.

(** A broadcast of ours that asks for an ack and leaves the hop limit open. *)
Definition sample_broadcast : meshtastic_MeshPacket :=
  {| from := 1; to := NODENUM_BROADCAST; id := 7; channel := 0;
     hop_limit := 0; hop_start := 0; want_ack := true;
     which_payload_variant := meshtastic_MeshPacket_decoded_tag;
     decoded_request_id := 0 |}.

(** A direct message of ours to node 2, rejected by the next-hop router of
    [sample_env]. *)
Definition sample_direct : meshtastic_MeshPacket :=
  {| from := 1; to := 2; id := 8; channel := 0;
     hop_limit := 3; hop_start := 3; want_ack := true;
     which_payload_variant := meshtastic_MeshPacket_decoded_tag;
     decoded_request_id := 0 |}.

Definition empty_state : RouterState := {| pending := ∅; trace := [] |}.

(** A table that holds node 2's packet 7, due at 1000 ms. *)
Definition sample_foreign_entry : PendingPacket :=
  {| packet := {| from := 2; to := 3; id := 7; channel := 0;
                  hop_limit := 3; hop_start := 3; want_ack := true;
                  which_payload_variant := meshtastic_MeshPacket_decoded_tag;
                  decoded_request_id := 0 |};
     nextTxMsec := 1000;
     numRetransmissions := 2 |}.

Definition sample_foreign_state : RouterState :=
  {| pending := {[ (2, 7) := sample_foreign_entry ]}; trace := [] |}.

(** The table after [sample_broadcast] was sent: our packet 7 is pending. *)
Definition sample_pending_state : RouterState :=
  {| pending := {[ (1, 7) := {| packet := set_hop_limit 3 sample_broadcast;
                                nextTxMsec := 5000; numRetransmissions := 3 |} ]};
     trace := [] |}.

(** A neighbour relays [sample_broadcast]: the sender field is still ours. *)
Definition sample_rebroadcast : meshtastic_MeshPacket :=
  {| from := 1; to := NODENUM_BROADCAST; id := 7; channel := 0;
     hop_limit := 2; hop_start := 3; want_ack := true;
     which_payload_variant := meshtastic_MeshPacket_decoded_tag;
     decoded_request_id := 0 |}.

(** Node 5's broadcast 9, heard at its original hop count. *)
Definition sample_repeated : meshtastic_MeshPacket :=
  {| from := 5; to := NODENUM_BROADCAST; id := 9; channel := 0;
     hop_limit := 3; hop_start := 3; want_ack := false;
     which_payload_variant := meshtastic_MeshPacket_decoded_tag;
     decoded_request_id := 0 |}.

(** Node 5's broadcast 9 with neither hop start nor hop limit set. *)
Definition sample_zero_hops : meshtastic_MeshPacket :=
  {| from := 5; to := NODENUM_BROADCAST; id := 9; channel := 0;
     hop_limit := 0; hop_start := 0; want_ack := false;
     which_payload_variant := meshtastic_MeshPacket_decoded_tag;
     decoded_request_id := 0 |}.

(** A want_ack packet for us from node 5 that could not be decrypted. *)
Definition sample_encrypted_for_us : meshtastic_MeshPacket :=
  {| from := 5; to := 1; id := 11; channel := 0;
     hop_limit := 3; hop_start := 3; want_ack := true;
     which_payload_variant := meshtastic_MeshPacket_encrypted_tag;
     decoded_request_id := 0 |}.

(** A routing packet for us from node 5 that answers our packet 7. *)
Definition sample_routing_for_us : meshtastic_MeshPacket :=
  {| from := 5; to := 1; id := 12; channel := 0;
     hop_limit := 3; hop_start := 3; want_ack := false;
     which_payload_variant := meshtastic_MeshPacket_decoded_tag;
     decoded_request_id := 7 |}.

(** Our packet 7 as the phone handed it over: the sender field is not set yet. *)
Definition sample_from_phone : meshtastic_MeshPacket :=
  {| from := 0; to := NODENUM_BROADCAST; id := 7; channel := 0;
     hop_limit := 3; hop_start := 3; want_ack := false;
     which_payload_variant := meshtastic_MeshPacket_decoded_tag;
     decoded_request_id := 0 |}.

(** The collaborators of [sample_env], with the primary channel at index 1. *)
Definition sample_env_primary_1 : Collaborators :=
  {| getNodeNum := 1;
     config_lora_hop_limit := 0;
     getConfiguredOrDefaultHopLimit := fun h => if h =? 0 then 3 else h;
     HOP_RELIABLE := 3;
     getPacketTime := fun _ => 100;
     wasSeenRecently := fun _ _ => true;
     currentReply := false;
     getMeshNode := fun _ => None;
     owner_public_key_size := 32;
     getPrimaryIndex := 1;
     initialNextTx := fun _ => 5000;
     NUM_RETRANSMISSIONS := 3;
     FloodingRouter_send_result := fun _ => 0;
     NextHopRouter_send_result := fun _ => 4;
     FloodingRouter_filter_result := fun _ => false;
     NextHopRouter_filter_result := fun _ => false |}.

(** A want_ack packet for us from the unknown node 5, still encrypted, with
    channel 1. *)
Definition sample_encrypted_channel_1 : meshtastic_MeshPacket :=
  {| from := 5; to := 1; id := 13; channel := 1;
     hop_limit := 3; hop_start := 3; want_ack := true;
     which_payload_variant := meshtastic_MeshPacket_encrypted_tag;
     decoded_request_id := 0 |}.

(** ** Properties *)

(** *** Generic facts about the monad *)

Lemma calls_app {A : Type} (m : Router A) (s : RouterState) (evs : list Event) :
  trace (exec m s) = trace s ++ evs -> calls m s = evs.
Proof. intros E. unfold calls. rewrite E. apply drop_app_length. Qed.

(** *** send *)

Lemma eval_send_enroll (env : Collaborators) (p : meshtastic_MeshPacket) (s : RouterState) :
  eval (send_enroll env p) s =
    if want_ack p && (hop_limit p =? 0) then set_hop_limit (default_hop_limit env) p else p.
Proof.
  unfold send_enroll, eval. destruct (want_ack p); [|reflexivity].
  cbn. destruct (hop_limit p =? 0); reflexivity.
Qed.

Lemma exec_send_enroll (env : Collaborators) (p : meshtastic_MeshPacket) (s : RouterState) :
  exec (send_enroll env p) s =
    if want_ack p then
      let p1 := eval (send_enroll env p) s in
      {| pending := <[GlobalPacketId_of env p := {| packet := p1;
                                                     nextTxMsec := initialNextTx env p1;
                                                     numRetransmissions := NUM_RETRANSMISSIONS env |}]>
                      (pending s);
         trace := trace s |}
    else s.
Proof.
  unfold send_enroll, eval, exec. destruct (want_ack p); [|reflexivity].
  cbn. destruct (hop_limit p =? 0); reflexivity.
Qed.

Lemma id_send_enroll (env : Collaborators) (p : meshtastic_MeshPacket) (s : RouterState) :
  id (eval (send_enroll env p) s) = id p /\ to (eval (send_enroll env p) s) = to p.
Proof.
  rewrite eval_send_enroll. destruct (want_ack p && (hop_limit p =? 0)); split; reflexivity.
Qed.

Lemma send_unfold (env : Collaborators) (p : meshtastic_MeshPacket) (s : RouterState) :
  let p1 := eval (send_enroll env p) s in
  send env p s =
    ((delegate_send_result env p1, p1),
     {| pending := map_imap (fun i rec => Some (send_airtime_entry env p1 i rec))
                     (pending (exec (send_enroll env p) s));
        trace := trace (exec (send_enroll env p) s) ++ [delegate_send_call p1] |}).
Proof.
  unfold send, bind, send_delegate, delegate_send_result, delegate_send_call, eval, exec.
  cbn. destruct (to (send_enroll env p s).1 =? NODENUM_BROADCAST); reflexivity.
Qed.

Lemma trace_send_enroll (env : Collaborators) (p : meshtastic_MeshPacket) (s : RouterState) :
  trace (exec (send_enroll env p) s) = trace s.
Proof. rewrite exec_send_enroll. destruct (want_ack p); reflexivity. Qed.

Lemma lookup_send (env : Collaborators) (p : meshtastic_MeshPacket) (s : RouterState)
    (k : GlobalPacketId) :
  pending (exec (send env p) s) !! k =
    send_airtime_entry env (eval (send_enroll env p) s) k <$>
      pending (exec (send_enroll env p) s) !! k.
Proof.
  unfold exec at 1. rewrite send_unfold. cbn. rewrite map_lookup_imap.
  destruct (pending (exec (send_enroll env p) s) !! k); reflexivity.
Qed.

Lemma GlobalPacketId_of_send_enroll (env : Collaborators) (p : meshtastic_MeshPacket)
    (s : RouterState) :
  GlobalPacketId_of env (eval (send_enroll env p) s) = GlobalPacketId_of env p.
Proof.
  rewrite eval_send_enroll. destruct (want_ack p && (hop_limit p =? 0)); reflexivity.
Qed.

(** The entry that [send] creates for a want_ack packet is in the table when
    [send] returns, untouched by the airtime loop. *)
Lemma lookup_send_own (env : Collaborators) (p : meshtastic_MeshPacket) (s : RouterState) :
  want_ack p = true ->
  let p1 := eval (send_enroll env p) s in
  pending (exec (send env p) s) !! GlobalPacketId_of env p =
    Some {| packet := p1; nextTxMsec := initialNextTx env p1;
            numRetransmissions := NUM_RETRANSMISSIONS env |}.
Proof.
  intros W p1. subst p1. rewrite lookup_send, exec_send_enroll, W. cbn.
  rewrite lookup_insert_eq. cbn. unfold send_airtime_entry, gp_id.
  destruct (id_send_enroll env p s) as [-> _]. cbn.
  rewrite Z.eqb_refl. reflexivity.
Qed.

(** C1: for a want_ack packet whose hop limit is zero, send rewrites the hop
    limit to the configured default, leaves a copy of the rewritten packet in
    the pending table under the packet's GlobalPacketId, and delegates the
    rewritten packet to the flooding router when the destination is the
    broadcast address and to the next-hop router otherwise, returning the
    delegate's answer. *)
Theorem send_want_ack_zero_hop_limit (env : Collaborators) (p : meshtastic_MeshPacket)
    (s : RouterState) :
  want_ack p = true ->
  hop_limit p = 0 ->
  let p1 :=
    {| from := from p; to := to p; id := id p; channel := channel p;
       hop_limit := getConfiguredOrDefaultHopLimit env (config_lora_hop_limit env);
       hop_start := hop_start p; want_ack := want_ack p;
       which_payload_variant := which_payload_variant p;
       decoded_request_id := decoded_request_id p |} in
  eval (send env p) s =
    (if to p =? NODENUM_BROADCAST
     then FloodingRouter_send_result env p1 else NextHopRouter_send_result env p1, p1) /\
  pending (exec (send env p) s) !! (getFrom env p, id p) =
    Some {| packet := p1; nextTxMsec := initialNextTx env p1;
            numRetransmissions := NUM_RETRANSMISSIONS env |} /\
  trace (exec (send env p) s) =
    trace s ++ [if to p =? NODENUM_BROADCAST
                then Call_FloodingRouter_send p1 else Call_NextHopRouter_send p1].
Proof.
  intros W H p1.
  assert (E : eval (send_enroll env p) s = p1).
  { rewrite eval_send_enroll, W, H. reflexivity. }
  split; [|split].
  - unfold eval. rewrite send_unfold, E. reflexivity.
  - pose proof (lookup_send_own env p s W) as L. cbv zeta in L. rewrite E in L. exact L.
  - unfold exec at 1. rewrite send_unfold, E, trace_send_enroll. reflexivity.
Qed.

Lemma send_want_ack_zero_hop_limit_witness :
  want_ack sample_broadcast = true /\ hop_limit sample_broadcast = 0 /\
  pending (exec (send sample_env sample_broadcast) empty_state) !! (1, 7) =
    Some {| packet :=
              {| from := 1; to := NODENUM_BROADCAST; id := 7; channel := 0;
                 hop_limit := 3; hop_start := 0; want_ack := true;
                 which_payload_variant := meshtastic_MeshPacket_decoded_tag;
                 decoded_request_id := 0 |};
            nextTxMsec := 5000;
            numRetransmissions := 3 |} /\
  trace (exec (send sample_env sample_broadcast) empty_state) =
    [Call_FloodingRouter_send
       {| from := 1; to := NODENUM_BROADCAST; id := 7; channel := 0;
          hop_limit := 3; hop_start := 0; want_ack := true;
          which_payload_variant := meshtastic_MeshPacket_decoded_tag;
          decoded_request_id := 0 |}].
Proof.
  pose proof (send_want_ack_zero_hop_limit sample_env sample_broadcast empty_state
                eq_refl eq_refl) as (_ & A & B).
  split; [reflexivity|]. split; [reflexivity|]. split; [exact A|exact B].
Defined.

(** The packet that [send] passes on: the argument, with a zero hop limit
    replaced when an ack is wanted. *)
Lemma send_packet_cases (env : Collaborators) (p : meshtastic_MeshPacket) (s : RouterState) :
  (eval (send env p) s).2 = eval (send_enroll env p) s.
Proof. unfold eval at 1. rewrite send_unfold. reflexivity. Qed.

(** C8: whatever the delegated router answers, in particular a rejection,
    send returns that answer unchanged, and the entry created for a want_ack
    packet is in the pending table when send returns. *)
Theorem send_error_propagates (env : Collaborators) (p : meshtastic_MeshPacket)
    (s : RouterState) (err : ErrorCode) :
  let p1 := if want_ack p && (hop_limit p =? 0)
            then set_hop_limit (default_hop_limit env) p else p in
  delegate_send_result env p1 = err ->
  trace (exec (send env p) s) = trace s ++ [delegate_send_call p1] /\
  (eval (send env p) s).1 = err /\
  (want_ack p = true ->
   pending (exec (send env p) s) !! GlobalPacketId_of env p =
     Some {| packet := p1; nextTxMsec := initialNextTx env p1;
             numRetransmissions := NUM_RETRANSMISSIONS env |}).
Proof.
  intros p1 E.
  assert (P : eval (send_enroll env p) s = p1) by apply eval_send_enroll.
  split; [|split].
  - unfold exec at 1. rewrite send_unfold, P, trace_send_enroll. reflexivity.
  - unfold eval. rewrite send_unfold, P. exact E.
  - intros W. pose proof (lookup_send_own env p s W) as L. cbv zeta in L.
    rewrite P in L. exact L.
Qed.

Lemma send_error_propagates_witness :
  delegate_send_result sample_env sample_direct = 4 /\
  (eval (send sample_env sample_direct) empty_state).1 = 4 /\
  pending (exec (send sample_env sample_direct) empty_state) !! (1, 8) =
    Some {| packet := sample_direct; nextTxMsec := 5000; numRetransmissions := 3 |}.
Proof.
  pose proof (send_error_propagates sample_env sample_direct empty_state 4 eq_refl)
    as (_ & R & T).
  split; [reflexivity|]. split; [exact R|]. exact (T eq_refl).
Defined.

(** C10: send works on the caller's packet.  For a want_ack packet with a
    zero hop limit, the caller's packet, the copy kept in the table and the
    packet handed to the delegated router all carry the default hop limit;
    any other packet reaches the delegated router with every field as the
    caller passed it. *)
Theorem send_mutates_in_place (env : Collaborators) (p : meshtastic_MeshPacket)
    (s : RouterState) :
  (want_ack p = true -> hop_limit p = 0 ->
   let p1 :=
     {| from := from p; to := to p; id := id p; channel := channel p;
        hop_limit := getConfiguredOrDefaultHopLimit env (config_lora_hop_limit env);
        hop_start := hop_start p; want_ack := want_ack p;
        which_payload_variant := which_payload_variant p;
        decoded_request_id := decoded_request_id p |} in
   (eval (send env p) s).2 = p1 /\
   packet <$> pending (exec (send env p) s) !! GlobalPacketId_of env p = Some p1 /\
   trace (exec (send env p) s) = trace s ++ [delegate_send_call p1]) /\
  (want_ack p = false \/ hop_limit p <> 0 ->
   (eval (send env p) s).2 = p /\
   trace (exec (send env p) s) = trace s ++ [delegate_send_call p] /\
   (want_ack p = true ->
    packet <$> pending (exec (send env p) s) !! GlobalPacketId_of env p = Some p)).
Proof.
  split.
  - intros W H p1.
    assert (P : eval (send_enroll env p) s = p1).
    { rewrite eval_send_enroll, W, H. reflexivity. }
    split; [|split].
    + rewrite send_packet_cases. exact P.
    + pose proof (lookup_send_own env p s W) as L. cbv zeta in L. rewrite L, P. reflexivity.
    + unfold exec at 1. rewrite send_unfold, P, trace_send_enroll. reflexivity.
  - intros C.
    assert (P : eval (send_enroll env p) s = p).
    { rewrite eval_send_enroll. destruct C as [->| N]; [reflexivity|].
      apply Z.eqb_neq in N. rewrite N, andb_false_r. reflexivity. }
    split; [|split].
    + rewrite send_packet_cases. exact P.
    + unfold exec at 1. rewrite send_unfold, P, trace_send_enroll. reflexivity.
    + intros W. pose proof (lookup_send_own env p s W) as L. cbv zeta in L.
      rewrite L, P. reflexivity.
Qed.

Lemma send_mutates_in_place_witness :
  (want_ack sample_broadcast = true /\ hop_limit sample_broadcast = 0 /\
   let rewritten :=
     {| from := 1; to := NODENUM_BROADCAST; id := 7; channel := 0;
        hop_limit := 3; hop_start := 0; want_ack := true;
        which_payload_variant := meshtastic_MeshPacket_decoded_tag;
        decoded_request_id := 0 |} in
   (eval (send sample_env sample_broadcast) empty_state).2 = rewritten /\
   packet <$> pending (exec (send sample_env sample_broadcast) empty_state) !! (1, 7) =
     Some rewritten /\
   trace (exec (send sample_env sample_broadcast) empty_state) =
     [Call_FloodingRouter_send rewritten]) /\
  (hop_limit sample_direct <> 0 /\
   (eval (send sample_env sample_direct) empty_state).2 = sample_direct).
Proof.
  pose proof (send_mutates_in_place sample_env sample_broadcast empty_state) as [A _].
  pose proof (send_mutates_in_place sample_env sample_direct empty_state) as [_ B].
  split.
  - split; [reflexivity|]. split; [reflexivity|]. exact (A eq_refl eq_refl).
  - assert (N : hop_limit sample_direct <> 0) by (cbn; lia).
    split; [exact N|]. exact (proj1 (B (or_intror N))).
Defined.

(** The airtime loop of [send] neither adds nor removes an entry. *)
Lemma lookup_send_None (env : Collaborators) (p : meshtastic_MeshPacket) (s : RouterState)
    (k : GlobalPacketId) :
  pending (exec (send_enroll env p) s) !! k = None ->
  pending (exec (send env p) s) !! k = None.
Proof. intros E. rewrite lookup_send, E. reflexivity. Qed.

(** C4, as the code has it: during send, an entry is moved by the packet's
    airtime exactly when the packet id in its key differs from the packet's
    id; an entry whose key carries the same packet id, among them the entry
    just created for this packet, keeps its deadline; the entry's packet and
    retry count are never touched. *)
Theorem send_airtime_by_packet_id (env : Collaborators) (p : meshtastic_MeshPacket)
    (s : RouterState) (k : GlobalPacketId) (rec : PendingPacket) :
  pending (exec (send_enroll env p) s) !! k = Some rec ->
  pending (exec (send env p) s) !! k =
    Some {| packet := packet rec;
            nextTxMsec :=
              if gp_id k =? id p then nextTxMsec rec
              else uint32 (nextTxMsec rec + getPacketTime env (eval (send env p) s).2);
            numRetransmissions := numRetransmissions rec |}.
Proof.
  intros E. rewrite send_packet_cases, lookup_send, E. cbn.
  unfold send_airtime_entry. destruct (id_send_enroll env p s) as [-> _].
  destruct (gp_id k =? id p); cbn; [destruct rec|]; reflexivity.
Qed.

Lemma send_airtime_by_packet_id_witness :
  pending (exec (send_enroll sample_env sample_direct) sample_foreign_state) !! (2, 7) =
    Some sample_foreign_entry /\
  pending (exec (send sample_env sample_direct) sample_foreign_state) !! (2, 7) =
    Some {| packet := packet sample_foreign_entry; nextTxMsec := 1100;
            numRetransmissions := 2 |}.
Proof.
  split; [reflexivity|].
  exact (send_airtime_by_packet_id sample_env sample_direct sample_foreign_state (2, 7)
           sample_foreign_entry eq_refl).
Defined.

(** C4, as stated, fails: while our packet 7 is sent, the entry of node 2's
    packet 7 is another entry than the one just created, and yet its
    deadline stays at 1000 ms. *)
Lemma send_airtime_as_specified_fails :
  ~ send_airtime_as_specified sample_env (set_hop_limit 3 sample_broadcast)
      (pending (exec (send_enroll sample_env sample_broadcast) sample_foreign_state))
      (pending (exec (send sample_env sample_broadcast) sample_foreign_state)).
Proof.
  intros H. specialize (H (2, 7) sample_foreign_entry eq_refl).
  vm_compute in H. discriminate H.
Qed.

(** *** shouldFilterReceived *)

Lemma implicitAck_other_sender (env : Collaborators) (p : meshtastic_MeshPacket)
    (s : RouterState) :
  from p <> getNodeNum env -> exec (implicitAck env p) s = s.
Proof.
  intros N. unfold implicitAck, exec. apply Z.eqb_neq in N. rewrite N. reflexivity.
Qed.

Lemma implicitAck_found (env : Collaborators) (p : meshtastic_MeshPacket) (s : RouterState)
    (old : PendingPacket) :
  from p = getNodeNum env ->
  pending s !! (getFrom env p, id p) = Some old ->
  exec (implicitAck env p) s =
    {| pending := delete (getFrom env p, id p) (pending s);
       trace := trace s ++ [Call_sendAckNak meshtastic_Routing_Error_NONE (getFrom env p) (id p)
                              (channel (packet old)) None] |}.
Proof.
  intros E L. unfold implicitAck, exec, bind, findPendingPacket.
  apply Z.eqb_eq in E. rewrite E. cbn. rewrite L. cbn.
  unfold stopRetransmission. cbn. rewrite L. reflexivity.
Qed.

Lemma implicitAck_not_found (env : Collaborators) (p : meshtastic_MeshPacket)
    (s : RouterState) :
  pending s !! (getFrom env p, id p) = None ->
  exec (implicitAck env p) s = s.
Proof.
  intros L. unfold implicitAck, exec, bind, findPendingPacket.
  destruct (from p =? getNodeNum env); [|reflexivity]. cbn. rewrite L. reflexivity.
Qed.

(** The calls of the re-emission step. *)
Lemma resendImplicitAck_unfold (env : Collaborators) (p : meshtastic_MeshPacket)
    (s : RouterState) :
  exec (resendImplicitAck env p) s =
    {| pending := pending s;
       trace := trace s ++
                if shouldResend env p
                then [Call_Router_send (set_hop_limit (uint8 (hop_limit p - 1)) p)]
                else [] |}.
Proof.
  unfold resendImplicitAck, exec. destruct (shouldResend env p); cbn.
  - reflexivity.
  - rewrite app_nil_r. destruct s; reflexivity.
Qed.

Lemma shouldFilterReceived_unfold (env : Collaborators) (p : meshtastic_MeshPacket)
    (s : RouterState) :
  let s1 := exec (implicitAck env p) s in
  exec (shouldFilterReceived env p) s =
    {| pending := add_nextTxMsec (getPacketTime env p) <$> pending s1;
       trace := (trace s1 ++
                 if shouldResend env p
                 then [Call_Router_send (set_hop_limit (uint8 (hop_limit p - 1)) p)]
                 else []) ++ [delegate_filter_call p] |}.
Proof.
  intros s1. unfold shouldFilterReceived, exec, bind.
  change ((implicitAck env p s).2) with s1.
  change ((received_airtime env p s1).2) with
    {| pending := add_nextTxMsec (getPacketTime env p) <$> pending s1; trace := trace s1 |}.
  set (s2 := {| pending := _; trace := trace s1 |}).
  change ((resendImplicitAck env p s2).2) with (exec (resendImplicitAck env p) s2).
  rewrite resendImplicitAck_unfold. unfold delegate_filter_call.
  destruct (to p =? NODENUM_BROADCAST); reflexivity.
Qed.

Lemma calls_shouldFilterReceived (env : Collaborators) (p : meshtastic_MeshPacket)
    (s : RouterState) (evs : list Event) :
  trace (exec (implicitAck env p) s) = trace s ++ evs ->
  calls (shouldFilterReceived env p) s =
    evs ++ (if shouldResend env p
            then [Call_Router_send (set_hop_limit (uint8 (hop_limit p - 1)) p)]
            else []) ++ [delegate_filter_call p].
Proof.
  intros E. apply calls_app. rewrite shouldFilterReceived_unfold. cbn.
  rewrite E, <- !app_assoc. reflexivity.
Qed.

Lemma lookup_shouldFilterReceived (env : Collaborators) (p : meshtastic_MeshPacket)
    (s : RouterState) (k : GlobalPacketId) :
  pending (exec (shouldFilterReceived env p) s) !! k =
    add_nextTxMsec (getPacketTime env p) <$> pending (exec (implicitAck env p) s) !! k.
Proof. rewrite shouldFilterReceived_unfold. cbn. apply lookup_fmap. Qed.

(** C3: when the sender field of a received packet is this node's number and
    the packet's GlobalPacketId is pending, the first step of
    shouldFilterReceived hands a no-error ack to the sending side and removes
    the entry, so that the table no longer holds it when shouldFilterReceived
    returns; when no such entry is pending, that step changes nothing and no
    ack is generated during the call. *)
Theorem implicit_ack_on_self_heard (env : Collaborators) (p : meshtastic_MeshPacket)
    (s : RouterState) :
  from p = getNodeNum env ->
  let key := GlobalPacketId_of env p in
  (forall old : PendingPacket,
     pending s !! key = Some old ->
     let ack := Call_sendAckNak meshtastic_Routing_Error_NONE (getFrom env p) (id p)
                  (channel (packet old)) None in
     exec (implicitAck env p) s =
       {| pending := delete key (pending s); trace := trace s ++ [ack] |} /\
     filter (fun e => is_sendAckNak e = true) (calls (shouldFilterReceived env p) s) = [ack] /\
     pending (exec (shouldFilterReceived env p) s) !! key = None) /\
  (pending s !! key = None ->
   exec (implicitAck env p) s = s /\
   filter (fun e => is_sendAckNak e = true) (calls (shouldFilterReceived env p) s) = []).
Proof.
  intros E key. split.
  - intros old L ack.
    pose proof (implicitAck_found env p s old E L) as F. fold key ack in F.
    split; [exact F|]. split.
    + rewrite (calls_shouldFilterReceived env p s [ack]) by (rewrite F; reflexivity).
      unfold delegate_filter_call.
      destruct (shouldResend env p), (to p =? NODENUM_BROADCAST); reflexivity.
    + rewrite lookup_shouldFilterReceived, F. cbn. rewrite lookup_delete_eq. reflexivity.
  - intros L. pose proof (implicitAck_not_found env p s L) as F.
    split; [exact F|].
    rewrite (calls_shouldFilterReceived env p s []) by (rewrite F, app_nil_r; reflexivity).
    unfold delegate_filter_call.
    destruct (shouldResend env p), (to p =? NODENUM_BROADCAST); reflexivity.
Qed.

Lemma implicit_ack_on_self_heard_witness :
  from sample_rebroadcast = getNodeNum sample_env /\
  pending sample_pending_state !! (1, 7) =
    Some {| packet := set_hop_limit 3 sample_broadcast; nextTxMsec := 5000;
            numRetransmissions := 3 |} /\
  pending (exec (shouldFilterReceived sample_env sample_rebroadcast) sample_pending_state)
    !! (1, 7) = None /\
  pending empty_state !! (1, 7) = None /\
  exec (implicitAck sample_env sample_rebroadcast) empty_state = empty_state.
Proof.
  pose proof (implicit_ack_on_self_heard sample_env sample_rebroadcast sample_pending_state
                eq_refl) as [A _].
  pose proof (implicit_ack_on_self_heard sample_env sample_rebroadcast empty_state
                eq_refl) as [_ B].
  split; [reflexivity|]. split; [reflexivity|].
  split; [exact (proj2 (proj2 (A _ eq_refl)))|].
  split; [reflexivity|]. exact (proj1 (B eq_refl)).
Defined.

(** C5: every entry that is in the pending table after the self-heard step
    of shouldFilterReceived has its deadline moved by the received packet's
    airtime, in the arithmetic of the 32-bit millisecond counter (so by the
    airtime itself whenever the counter does not wrap); its packet and retry
    count stay as they were. *)
Theorem received_airtime_all_entries (env : Collaborators) (p : meshtastic_MeshPacket)
    (s : RouterState) (k : GlobalPacketId) (rec : PendingPacket) :
  pending (exec (implicitAck env p) s) !! k = Some rec ->
  pending (exec (shouldFilterReceived env p) s) !! k =
    Some {| packet := packet rec;
            nextTxMsec := uint32 (nextTxMsec rec + getPacketTime env p);
            numRetransmissions := numRetransmissions rec |} /\
  (0 <= nextTxMsec rec + getPacketTime env p < 2 ^ 32 ->
   uint32 (nextTxMsec rec + getPacketTime env p) = nextTxMsec rec + getPacketTime env p).
Proof.
  intros L. split.
  - rewrite lookup_shouldFilterReceived, L. reflexivity.
  - intros B. unfold uint32. apply Z.mod_small. exact B.
Qed.

Lemma received_airtime_all_entries_witness :
  pending (exec (implicitAck sample_env sample_repeated) sample_foreign_state) !! (2, 7) =
    Some sample_foreign_entry /\
  pending (exec (shouldFilterReceived sample_env sample_repeated) sample_foreign_state) !! (2, 7) =
    Some {| packet := packet sample_foreign_entry; nextTxMsec := 1100;
            numRetransmissions := 2 |} /\
  0 <= 1000 + 100 < 2 ^ 32 /\
  uint32 (1000 + 100) = 1000 + 100.
Proof.
  pose proof (received_airtime_all_entries sample_env sample_repeated sample_foreign_state
                (2, 7) sample_foreign_entry eq_refl) as [A B].
  assert (R : 0 <= 1000 + 100 < 2 ^ 32) by lia.
  split; [reflexivity|]. split; [exact A|]. split; [exact R|]. exact (B R).
Defined.

(** The code's test for a repeated packet, case by case. *)
Lemma isRepeated_cases (env : Collaborators) (p : meshtastic_MeshPacket) :
  isRepeated env p = true <->
  (hop_start p = 0 /\ hop_limit p = HOP_RELIABLE env) \/
  (hop_start p <> 0 /\ hop_start p = hop_limit p).
Proof.
  unfold isRepeated. destruct (Z.eqb_spec (hop_start p) 0) as [E|N].
  - rewrite Z.eqb_eq. split; [tauto|]. intros [[_ H]|[H _]]; [exact H|contradiction].
  - rewrite Z.eqb_eq. split; [tauto|]. intros [[H _]|[_ H]]; [contradiction|exact H].
Qed.

Lemma shouldResend_cases (env : Collaborators) (p : meshtastic_MeshPacket) :
  shouldResend env p = true <->
  wasSeenRecently env p false = true /\ isRepeated env p = true /\
  currentReply env = false /\ to p <> getNodeNum env.
Proof.
  unfold shouldResend. rewrite !andb_true_iff, !negb_true_iff, Z.eqb_neq. tauto.
Qed.

(** A repeated packet has at least one hop left, so the decrement of the
    8-bit hop limit does not wrap. *)
Lemma isRepeated_hop_limit (env : Collaborators) (p : meshtastic_MeshPacket) :
  packet_wf p = true -> HOP_RELIABLE env <> 0 -> isRepeated env p = true ->
  uint8 (hop_limit p - 1) = hop_limit p - 1.
Proof.
  unfold packet_wf. rewrite !andb_true_iff, !Z.leb_le, !Z.ltb_lt.
  intros [[[L1 L2] S1] S2] H R. apply isRepeated_cases in R.
  unfold uint8. apply Z.mod_small. lia.
Qed.

Lemma calls_shouldFilterReceived_Router_send (env : Collaborators) (p : meshtastic_MeshPacket)
    (s : RouterState) :
  filter (fun e => is_Router_send e = true) (calls (shouldFilterReceived env p) s) =
    if shouldResend env p
    then [Call_Router_send (set_hop_limit (uint8 (hop_limit p - 1)) p)] else [].
Proof.
  destruct (Z.eqb_spec (from p) (getNodeNum env)) as [E|N].
  - destruct (pending s !! (getFrom env p, id p)) as [old|] eqn:L.
    + rewrite (calls_shouldFilterReceived env p s _
                 ltac:(rewrite (implicitAck_found env p s old E L); reflexivity)).
      unfold delegate_filter_call.
      destruct (shouldResend env p), (to p =? NODENUM_BROADCAST); reflexivity.
    + rewrite (calls_shouldFilterReceived env p s []
                 ltac:(rewrite (implicitAck_not_found env p s L), app_nil_r; reflexivity)).
      unfold delegate_filter_call.
      destruct (shouldResend env p), (to p =? NODENUM_BROADCAST); reflexivity.
  - rewrite (calls_shouldFilterReceived env p s []
               ltac:(rewrite (implicitAck_other_sender env p s N), app_nil_r; reflexivity)).
    unfold delegate_filter_call.
    destruct (shouldResend env p), (to p =? NODENUM_BROADCAST); reflexivity.
Qed.

(** The self-heard step adds no entry to the table. *)
Lemma implicitAck_no_new_entry (env : Collaborators) (p : meshtastic_MeshPacket)
    (s : RouterState) (k : GlobalPacketId) :
  pending s !! k = None -> pending (exec (implicitAck env p) s) !! k = None.
Proof.
  intros K. destruct (Z.eqb_spec (from p) (getNodeNum env)) as [E|N].
  - destruct (pending s !! (getFrom env p, id p)) as [old|] eqn:L.
    + rewrite (implicitAck_found env p s old E L). cbn.
      rewrite lookup_delete. case_decide; [reflexivity|exact K].
    + rewrite (implicitAck_not_found env p s L). exact K.
  - rewrite (implicitAck_other_sender env p s N). exact K.
Qed.

(** C6, as the code has it: a received packet is re-emitted exactly when it
    was seen recently, is repeated in the code's sense (hop-start unset and
    hop-limit equal to the full relay budget, or hop-start set and equal to
    hop-limit), no module has a reply for it and it is not addressed to this
    node.  Then one copy goes to Router::send with its hop limit one lower,
    and the pending table gains no entry; otherwise nothing is re-emitted. *)
Theorem resend_for_repeated (env : Collaborators) (p : meshtastic_MeshPacket)
    (s : RouterState) :
  packet_wf p = true ->
  HOP_RELIABLE env <> 0 ->
  let repeated :=
    (hop_start p = 0 /\ hop_limit p = HOP_RELIABLE env) \/
    (hop_start p <> 0 /\ hop_start p = hop_limit p) in
  let conditions :=
    wasSeenRecently env p false = true /\ repeated /\
    currentReply env = false /\ to p <> getNodeNum env in
  let resent :=
    filter (fun e => is_Router_send e = true) (calls (shouldFilterReceived env p) s) in
  (conditions ->
   resent =
     [Call_Router_send
        {| from := from p; to := to p; id := id p; channel := channel p;
           hop_limit := hop_limit p - 1; hop_start := hop_start p; want_ack := want_ack p;
           which_payload_variant := which_payload_variant p;
           decoded_request_id := decoded_request_id p |}]) /\
  (~ conditions -> resent = []) /\
  (forall k : GlobalPacketId,
     pending s !! k = None -> pending (exec (shouldFilterReceived env p) s) !! k = None).
Proof.
  intros WF H repeated conditions resent.
  assert (C : conditions <-> shouldResend env p = true).
  { unfold conditions, repeated. rewrite shouldResend_cases, isRepeated_cases. tauto. }
  unfold resent. rewrite calls_shouldFilterReceived_Router_send.
  split; [|split].
  - intros Y. pose proof (proj1 C Y) as R. rewrite R.
    rewrite (isRepeated_hop_limit env p WF H); [reflexivity|].
    apply shouldResend_cases in R. tauto.
  - intros N. destruct (shouldResend env p); [|reflexivity].
    exfalso. apply N, C. reflexivity.
  - intros k K. rewrite lookup_shouldFilterReceived.
    rewrite (implicitAck_no_new_entry env p s k K). reflexivity.
Qed.

Lemma resend_for_repeated_witness :
  packet_wf sample_repeated = true /\ HOP_RELIABLE sample_env <> 0 /\
  filter (fun e => is_Router_send e = true)
    (calls (shouldFilterReceived sample_env sample_repeated) empty_state) =
    [Call_Router_send
       {| from := 5; to := NODENUM_BROADCAST; id := 9; channel := 0;
          hop_limit := 2; hop_start := 3; want_ack := false;
          which_payload_variant := meshtastic_MeshPacket_decoded_tag;
          decoded_request_id := 0 |}].
Proof.
  assert (H : HOP_RELIABLE sample_env <> 0) by (cbn; lia).
  pose proof (resend_for_repeated sample_env sample_repeated empty_state eq_refl H)
    as (Y & _ & _).
  split; [reflexivity|]. split; [exact H|].
  apply Y. split; [reflexivity|]. split.
  - right. cbn. split; [lia|reflexivity].
  - split; [reflexivity|]. cbn. unfold NODENUM_BROADCAST. lia.
Defined.

(** C6, as stated, fails: a recently seen broadcast with neither hop start
    nor hop limit set has hop-start equal to hop-limit, and yet it is not
    re-emitted, because with hop-start unset the code compares the hop limit
    with the relay budget only. *)
Lemma resend_as_specified_fails :
  ~ resend_as_specified sample_env sample_zero_hops empty_state.
Proof.
  unfold resend_as_specified. vm_compute. discriminate.
Qed.

(** *** sniffReceived *)

Lemma stopRetransmission_unfold (key : GlobalPacketId) (s : RouterState) :
  exec (stopRetransmission key) s = {| pending := delete key (pending s); trace := trace s |}.
Proof.
  unfold stopRetransmission, exec. destruct (pending s !! key) eqn:L; cbn; [reflexivity|].
  rewrite (delete_id _ _ L). destruct s; reflexivity.
Qed.

(** Removing an entry that is not there leaves the router as it was. *)
Lemma stopRetransmission_absent (key : GlobalPacketId) (s : RouterState) :
  pending s !! key = None -> stopRetransmission key s = (false, s).
Proof. intros L. unfold stopRetransmission. rewrite L. reflexivity. Qed.

Lemma sniff_want_ack_unfold (env : Collaborators) (p : meshtastic_MeshPacket) (s : RouterState) :
  exec (sniff_want_ack env p) s =
    {| pending := pending s;
       trace := trace s ++
         if want_ack p && negb (currentReply env) then
           [if bool_decide (which_payload_variant p = meshtastic_MeshPacket_decoded_tag) then
              Call_sendAckNak meshtastic_Routing_Error_NONE (getFrom env p) (id p) (channel p)
                (Some (hop_start p, hop_limit p))
            else if bool_decide (which_payload_variant p = meshtastic_MeshPacket_encrypted_tag) &&
                    (channel p =? 0) && public_key_unknown env (from p) then
              Call_sendAckNak meshtastic_Routing_Error_PKI_UNKNOWN_PUBKEY (getFrom env p) (id p)
                (getPrimaryIndex env) (Some (hop_start p, hop_limit p))
            else
              Call_sendAckNak meshtastic_Routing_Error_NO_CHANNEL (getFrom env p) (id p)
                (getPrimaryIndex env) (Some (hop_start p, hop_limit p))]
         else [] |}.
Proof.
  unfold sniff_want_ack, exec.
  destruct (want_ack p); cbn; [|rewrite app_nil_r; destruct s; reflexivity].
  destruct (currentReply env); cbn; [rewrite app_nil_r; destruct s; reflexivity|].
  destruct (bool_decide (which_payload_variant p = meshtastic_MeshPacket_decoded_tag));
    [reflexivity|].
  destruct (bool_decide (which_payload_variant p = meshtastic_MeshPacket_encrypted_tag) &&
            (channel p =? 0) && public_key_unknown env (from p)); reflexivity.
Qed.

Lemma sniff_pki_unfold (env : Collaborators) (p : meshtastic_MeshPacket)
    (c : option meshtastic_Routing) (s : RouterState) :
  exec (sniff_pki env p c) s =
    {| pending := pending s;
       trace := trace s ++
         if bool_decide (which_payload_variant p = meshtastic_MeshPacket_decoded_tag) &&
            has_error c meshtastic_Routing_Error_PKI_UNKNOWN_PUBKEY &&
            (owner_public_key_size env =? 32)
         then [Call_sendOurNodeInfo (from p) false (channel p) true] else [] |}.
Proof.
  unfold sniff_pki, exec.
  destruct (bool_decide (which_payload_variant p = meshtastic_MeshPacket_decoded_tag) &&
            has_error c meshtastic_Routing_Error_PKI_UNKNOWN_PUBKEY); cbn;
    [|rewrite app_nil_r; destruct s; reflexivity].
  destruct (owner_public_key_size env =? 32); cbn;
    [reflexivity|rewrite app_nil_r; destruct s; reflexivity].
Qed.

(** With a request id in the packet, one of [ackId] and [nakId] is that id,
    whatever the routing information says. *)
Lemma ackId_nakId (p : meshtastic_MeshPacket) (c : option meshtastic_Routing) :
  (ackId p c = decoded_request_id p /\ nakId p c = 0) \/
  (ackId p c = 0 /\ nakId p c = decoded_request_id p).
Proof.
  unfold ackId, nakId, has_error. destruct c as [r|]; cbn; [|left; split; reflexivity].
  destruct (decide (error_reason r = meshtastic_Routing_Error_NONE)) as [E|N].
  - left. rewrite (bool_decide_eq_true_2 _ E). cbn.
    rewrite bool_decide_eq_false_2 by tauto. split; reflexivity.
  - right. rewrite (bool_decide_eq_false_2 _ N). cbn.
    rewrite (bool_decide_eq_true_2 _ N). split; reflexivity.
Qed.

Lemma sniff_ack_nak_unfold (p : meshtastic_MeshPacket)
    (c : option meshtastic_Routing) (s : RouterState) :
  exec (sniff_ack_nak p c) s =
    if decoded_request_id p =? 0 then s
    else {| pending := delete (to p, decoded_request_id p) (pending s); trace := trace s |}.
Proof.
  unfold sniff_ack_nak.
  destruct (ackId_nakId p c) as [[-> ->]|[-> ->]]; cbn [Z.eqb negb orb];
    destruct (decoded_request_id p =? 0); cbn [negb orb]; try reflexivity.
  all: unfold exec, bind, stopRetransmission_from_id; cbn [fst snd ret];
    apply stopRetransmission_unfold.
Qed.

Lemma sniffReceived_unfold (env : Collaborators) (p : meshtastic_MeshPacket)
    (c : option meshtastic_Routing) (s : RouterState) :
  to p = getNodeNum env ->
  let s1 := exec (sniff_want_ack env p) s in
  let s2 := exec (sniff_pki env p c) s1 in
  let s3 := exec (sniff_ack_nak p c) s2 in
  exec (sniffReceived env p c) s =
    {| pending := pending s3; trace := trace s3 ++ [delegate_sniff_call p c] |}.
Proof.
  intros E s1 s2 s3. unfold sniffReceived, exec, bind, delegate_sniff_call.
  apply Z.eqb_eq in E. rewrite E. cbn [fst snd].
  destruct (to p =? NODENUM_BROADCAST); reflexivity.
Qed.

Lemma trace_sniff_ack_nak (p : meshtastic_MeshPacket) (c : option meshtastic_Routing)
    (s : RouterState) :
  trace (exec (sniff_ack_nak p c) s) = trace s.
Proof. rewrite sniff_ack_nak_unfold. destruct (decoded_request_id p =? 0); reflexivity. Qed.

Lemma calls_sniffReceived (env : Collaborators) (p : meshtastic_MeshPacket)
    (c : option meshtastic_Routing) (s : RouterState) :
  to p = getNodeNum env ->
  calls (sniffReceived env p c) s =
    calls (sniff_want_ack env p) s ++
    calls (sniff_pki env p c) (exec (sniff_want_ack env p) s) ++
    [delegate_sniff_call p c].
Proof.
  intros E. unfold calls at 2 3.
  rewrite sniff_pki_unfold, sniff_want_ack_unfold. cbn [trace pending].
  rewrite !drop_app_length. apply calls_app.
  rewrite (sniffReceived_unfold env p c s E). cbn [trace].
  rewrite trace_sniff_ack_nak, sniff_pki_unfold, sniff_want_ack_unfold. cbn [trace pending].
  rewrite <- !app_assoc. reflexivity.
Qed.

Lemma pending_sniffReceived (env : Collaborators) (p : meshtastic_MeshPacket)
    (c : option meshtastic_Routing) (s : RouterState) :
  to p = getNodeNum env ->
  pending (exec (sniffReceived env p c) s) =
    if decoded_request_id p =? 0 then pending s
    else delete (getNodeNum env, decoded_request_id p) (pending s).
Proof.
  intros E. rewrite (sniffReceived_unfold env p c s E). cbn [pending].
  rewrite sniff_ack_nak_unfold, sniff_pki_unfold, sniff_want_ack_unfold, E.
  destruct (decoded_request_id p =? 0); reflexivity.
Qed.

(** C2: a packet for this node that carries a request id is, whatever its
    routing information, an ack (no routing information, or routing
    information without an error) or a nak (routing information with an
    error); the id to cancel is that request id, and sniffReceived removes
    the pending entry keyed by this node and that id.  When no such entry is
    pending the table is left as it was. *)
Theorem sniffReceived_cancels (env : Collaborators) (p : meshtastic_MeshPacket)
    (c : option meshtastic_Routing) (s : RouterState) :
  to p = getNodeNum env ->
  decoded_request_id p <> 0 ->
  let key := (getNodeNum env, decoded_request_id p) in
  let is_ack :=
    c = None \/ exists r, c = Some r /\ error_reason r = meshtastic_Routing_Error_NONE in
  let is_nak :=
    exists r, c = Some r /\ error_reason r <> meshtastic_Routing_Error_NONE in
  (is_ack \/ is_nak) /\
  (is_ack -> ackId p c = decoded_request_id p) /\
  (is_nak -> nakId p c = decoded_request_id p) /\
  pending (exec (sniffReceived env p c) s) = delete key (pending s) /\
  pending (exec (sniffReceived env p c) s) !! key = None /\
  (pending s !! key = None -> pending (exec (sniffReceived env p c) s) = pending s).
Proof.
  intros E R key is_ack is_nak.
  assert (P : pending (exec (sniffReceived env p c) s) = delete key (pending s)).
  { rewrite (pending_sniffReceived env p c s E).
    apply Z.eqb_neq in R. rewrite R. reflexivity. }
  split; [|split; [|split; [|split; [|split]]]].
  - unfold is_ack, is_nak. destruct c as [r|]; [|left; left; reflexivity].
    destruct (decide (error_reason r = meshtastic_Routing_Error_NONE)) as [Y|N].
    + left. right. exists r. split; [reflexivity|exact Y].
    + right. exists r. split; [reflexivity|exact N].
  - intros [->|[r [-> Y]]]; unfold ackId, has_error; [reflexivity|].
    rewrite (bool_decide_eq_true_2 _ Y). reflexivity.
  - intros [r [-> N]]. unfold nakId. rewrite (bool_decide_eq_true_2 _ N). reflexivity.
  - exact P.
  - rewrite P. apply lookup_delete_eq.
  - intros L. rewrite P. apply delete_id, L.
Qed.

Lemma sniffReceived_cancels_witness :
  to sample_routing_for_us = getNodeNum sample_env /\
  decoded_request_id sample_routing_for_us <> 0 /\
  pending sample_pending_state !! (1, 7) <> None /\
  pending (exec (sniffReceived sample_env sample_routing_for_us
                   (Some (mkRouting meshtastic_Routing_Error_NONE))) sample_pending_state)
    !! (1, 7) = None /\
  pending (exec (sniffReceived sample_env sample_routing_for_us
                   (Some (mkRouting meshtastic_Routing_Error_MAX_RETRANSMIT))) empty_state)
    = pending empty_state.
Proof.
  assert (R : decoded_request_id sample_routing_for_us <> 0) by (cbn; lia).
  pose proof (sniffReceived_cancels sample_env sample_routing_for_us
                (Some (mkRouting meshtastic_Routing_Error_NONE)) sample_pending_state
                eq_refl R) as (_ & _ & _ & _ & A & _).
  pose proof (sniffReceived_cancels sample_env sample_routing_for_us
                (Some (mkRouting meshtastic_Routing_Error_MAX_RETRANSMIT)) empty_state
                eq_refl R) as (_ & _ & _ & _ & _ & B).
  split; [reflexivity|]. split; [exact R|]. split; [discriminate|].
  split; [exact A|]. exact (B eq_refl).
Defined.

Lemma calls_sniff_want_ack (env : Collaborators) (p : meshtastic_MeshPacket) (s : RouterState) :
  want_ack p = true -> currentReply env = false ->
  calls (sniff_want_ack env p) s =
    [if bool_decide (which_payload_variant p = meshtastic_MeshPacket_decoded_tag) then
       Call_sendAckNak meshtastic_Routing_Error_NONE (getFrom env p) (id p) (channel p)
         (Some (hop_start p, hop_limit p))
     else if bool_decide (which_payload_variant p = meshtastic_MeshPacket_encrypted_tag) &&
             (channel p =? 0) && public_key_unknown env (from p) then
       Call_sendAckNak meshtastic_Routing_Error_PKI_UNKNOWN_PUBKEY (getFrom env p) (id p)
         (getPrimaryIndex env) (Some (hop_start p, hop_limit p))
     else
       Call_sendAckNak meshtastic_Routing_Error_NO_CHANNEL (getFrom env p) (id p)
         (getPrimaryIndex env) (Some (hop_start p, hop_limit p))].
Proof.
  intros W R. apply calls_app. rewrite sniff_want_ack_unfold, W, R. reflexivity.
Qed.

Lemma calls_sniff_pki (env : Collaborators) (p : meshtastic_MeshPacket)
    (c : option meshtastic_Routing) (s : RouterState) :
  calls (sniff_pki env p c) s =
    if bool_decide (which_payload_variant p = meshtastic_MeshPacket_decoded_tag) &&
       has_error c meshtastic_Routing_Error_PKI_UNKNOWN_PUBKEY &&
       (owner_public_key_size env =? 32)
    then [Call_sendOurNodeInfo (from p) false (channel p) true] else [].
Proof. apply calls_app. rewrite sniff_pki_unfold. reflexivity. Qed.

(** The acks among the calls of sniffReceived are those of its want_ack step. *)
Lemma sendAckNak_calls_sniffReceived (env : Collaborators) (p : meshtastic_MeshPacket)
    (c : option meshtastic_Routing) (s : RouterState) :
  to p = getNodeNum env ->
  filter (fun e => is_sendAckNak e = true) (calls (sniffReceived env p c) s) =
    filter (fun e => is_sendAckNak e = true) (calls (sniff_want_ack env p) s).
Proof.
  intros E. rewrite (calls_sniffReceived env p c s E), !filter_app, calls_sniff_pki.
  unfold delegate_sniff_call.
  destruct (_ && _ && _), (to p =? NODENUM_BROADCAST); cbn; rewrite app_nil_r; reflexivity.
Qed.

(** C7, as the code has it: a want_ack packet for this node that no module
    has answered gets exactly one ack from sniffReceived: without error, on
    the packet's channel, when the payload is decoded; with
    PKI_UNKNOWN_PUBKEY when the payload is encrypted, the packet's channel
    field is 0 and the sender's public key is not known; with NO_CHANNEL in
    every other case.  The two error replies go out on the primary channel
    index. *)
Theorem want_ack_reply (env : Collaborators) (p : meshtastic_MeshPacket)
    (c : option meshtastic_Routing) (s : RouterState) :
  to p = getNodeNum env ->
  want_ack p = true ->
  currentReply env = false ->
  let acks := filter (fun e => is_sendAckNak e = true) (calls (sniffReceived env p c) s) in
  let hops := Some (hop_start p, hop_limit p) in
  let pki :=
    which_payload_variant p = meshtastic_MeshPacket_encrypted_tag /\ channel p = 0 /\
    public_key_unknown env (from p) = true in
  (which_payload_variant p = meshtastic_MeshPacket_decoded_tag ->
   acks = [Call_sendAckNak meshtastic_Routing_Error_NONE (getFrom env p) (id p) (channel p) hops]) /\
  (pki ->
   acks = [Call_sendAckNak meshtastic_Routing_Error_PKI_UNKNOWN_PUBKEY (getFrom env p) (id p)
             (getPrimaryIndex env) hops]) /\
  (which_payload_variant p <> meshtastic_MeshPacket_decoded_tag -> ~ pki ->
   acks = [Call_sendAckNak meshtastic_Routing_Error_NO_CHANNEL (getFrom env p) (id p)
             (getPrimaryIndex env) hops]).
Proof.
  intros E W R acks hops pki. unfold acks.
  rewrite (sendAckNak_calls_sniffReceived env p c s E), (calls_sniff_want_ack env p s W R).
  split; [|split].
  - intros D. rewrite (bool_decide_eq_true_2 _ D). reflexivity.
  - intros (V & C0 & U). rewrite bool_decide_eq_false_2 by (rewrite V; discriminate).
    rewrite (bool_decide_eq_true_2 _ V), C0, U. reflexivity.
  - intros D N. rewrite (bool_decide_eq_false_2 _ D).
    destruct (_ && _ && _) eqn:B; [|reflexivity].
    exfalso. apply N. apply andb_true_iff in B as [B U]. apply andb_true_iff in B as [V C0].
    apply bool_decide_eq_true_1 in V. apply Z.eqb_eq in C0. unfold pki. tauto.
Qed.

Lemma want_ack_reply_witness :
  to sample_encrypted_for_us = getNodeNum sample_env /\
  want_ack sample_encrypted_for_us = true /\
  currentReply sample_env = false /\
  filter (fun e => is_sendAckNak e = true)
    (calls (sniffReceived sample_env sample_encrypted_for_us None) empty_state) =
    [Call_sendAckNak meshtastic_Routing_Error_PKI_UNKNOWN_PUBKEY 5 11 0 (Some (3, 3))].
Proof.
  pose proof (want_ack_reply sample_env sample_encrypted_for_us None empty_state
                eq_refl eq_refl eq_refl) as (_ & A & _).
  split; [reflexivity|]. split; [reflexivity|]. split; [reflexivity|].
  apply A. split; [reflexivity|]. split; reflexivity.
Defined.

(** C7, as stated, fails: with the primary channel at index 1, an encrypted
    want_ack packet for us with channel 1 from the unknown node 5 is on the
    primary channel, and yet the reply carries NO_CHANNEL and not
    PKI_UNKNOWN_PUBKEY, because line 113 compares the packet's channel with 0
    and not with the primary index. *)
Lemma want_ack_reply_as_specified_fails :
  ~ want_ack_reply_as_specified sample_env_primary_1 sample_encrypted_channel_1 None
      empty_state.
Proof.
  intros H. destruct (H eq_refl eq_refl eq_refl) as (dest & idFrom & chIndex & hops & E).
  vm_compute in E. discriminate E.
Qed.

(** C9: when a decoded routing packet for this node reports
    PKI_UNKNOWN_PUBKEY and this node's public key has its 32 bytes,
    sniffReceived sends this node's NodeInfo to the packet's sender, on the
    packet's channel, exactly once; this does not depend on want_ack or on a
    reply being there already. *)
Theorem pki_error_sends_node_info (env : Collaborators) (p : meshtastic_MeshPacket)
    (r : meshtastic_Routing) (s : RouterState) :
  to p = getNodeNum env ->
  which_payload_variant p = meshtastic_MeshPacket_decoded_tag ->
  error_reason r = meshtastic_Routing_Error_PKI_UNKNOWN_PUBKEY ->
  owner_public_key_size env = 32 ->
  filter (fun e => is_sendOurNodeInfo e = true) (calls (sniffReceived env p (Some r)) s) =
    [Call_sendOurNodeInfo (from p) false (channel p) true].
Proof.
  intros E D P K.
  rewrite (calls_sniffReceived env p (Some r) s E), !filter_app, calls_sniff_pki.
  unfold has_error. rewrite (bool_decide_eq_true_2 _ D), (bool_decide_eq_true_2 _ P), K.
  unfold calls. rewrite sniff_want_ack_unfold. cbn [trace]. rewrite drop_app_length.
  unfold delegate_sniff_call.
  destruct (want_ack p && negb (currentReply env)), (to p =? NODENUM_BROADCAST);
    try reflexivity;
    destruct (bool_decide (which_payload_variant p = meshtastic_MeshPacket_decoded_tag));
    try reflexivity;
    destruct (_ && _ && _); reflexivity.
Qed.

Lemma pki_error_sends_node_info_witness :
  to sample_routing_for_us = getNodeNum sample_env /\
  which_payload_variant sample_routing_for_us = meshtastic_MeshPacket_decoded_tag /\
  owner_public_key_size sample_env = 32 /\
  filter (fun e => is_sendOurNodeInfo e = true)
    (calls (sniffReceived sample_env sample_routing_for_us
              (Some (mkRouting meshtastic_Routing_Error_PKI_UNKNOWN_PUBKEY))) empty_state) =
    [Call_sendOurNodeInfo 5 false 0 true].
Proof.
  split; [reflexivity|]. split; [reflexivity|]. split; [reflexivity|].
  exact (pki_error_sends_node_info sample_env sample_routing_for_us
           (mkRouting meshtastic_Routing_Error_PKI_UNKNOWN_PUBKEY) empty_state
           eq_refl eq_refl eq_refl eq_refl).
Defined.

(** *** The guards around the claims *)

(** Without a request id in the packet, sniffReceived cancels nothing. *)
Lemma sniffReceived_no_request_id (env : Collaborators) (p : meshtastic_MeshPacket)
    (c : option meshtastic_Routing) (s : RouterState) :
  to p = getNodeNum env ->
  decoded_request_id p = 0 ->
  pending (exec (sniffReceived env p c) s) = pending s.
Proof. intros E R. rewrite (pending_sniffReceived env p c s E), R. reflexivity. Qed.

(** A packet for another node is only passed on to the delegated router. *)
Lemma sniffReceived_not_for_us (env : Collaborators) (p : meshtastic_MeshPacket)
    (c : option meshtastic_Routing) (s : RouterState) :
  to p <> getNodeNum env ->
  exec (sniffReceived env p c) s =
    {| pending := pending s; trace := trace s ++ [delegate_sniff_call p c] |}.
Proof.
  intros N. unfold sniffReceived, exec, bind, delegate_sniff_call.
  apply Z.eqb_neq in N. rewrite N. cbn [fst snd ret].
  destruct (to p =? NODENUM_BROADCAST); reflexivity.
Qed.

(** The NodeInfo is sent for a decoded payload only. *)
Lemma sniff_pki_not_decoded (env : Collaborators) (p : meshtastic_MeshPacket)
    (c : option meshtastic_Routing) (s : RouterState) :
  which_payload_variant p <> meshtastic_MeshPacket_decoded_tag ->
  calls (sniff_pki env p c) s = [].
Proof.
  intros N. rewrite calls_sniff_pki, (bool_decide_eq_false_2 _ N). reflexivity.
Qed.

(** With hop-start set, the two readings of "repeated" agree; they differ
    only when hop-start and hop-limit are both zero. *)
Lemma isRepeated_as_specified_agrees (env : Collaborators) (p : meshtastic_MeshPacket) :
  hop_start p <> 0 \/ hop_limit p <> 0 ->
  isRepeated_as_specified env p = isRepeated env p.
Proof.
  unfold isRepeated_as_specified, isRepeated.
  destruct (Z.eqb_spec (hop_start p) 0) as [E|N]; cbn.
  - intros [H|H]; [contradiction|]. rewrite E.
    destruct (Z.eqb_spec 0 (hop_limit p)) as [Z0|_]; [congruence|].
    apply orb_false_r.
  - reflexivity.
Qed.

(** ** Further properties of the three entry points *)

(** *** Arithmetic of the deadline *)

Lemma uint32_add_add (x a b : Z) : uint32 (uint32 (x + a) + b) = uint32 (x + (a + b)).
Proof. unfold uint32. rewrite Zplus_mod_idemp_l. f_equal. lia. Qed.

Lemma add_nextTxMsec_add (a b : Z) (rec : PendingPacket) :
  add_nextTxMsec b (add_nextTxMsec a rec) = add_nextTxMsec (a + b) rec.
Proof. unfold add_nextTxMsec. cbn. rewrite uint32_add_add. reflexivity. Qed.

Lemma add_nextTxMsec_comm (a b : Z) (rec : PendingPacket) :
  add_nextTxMsec b (add_nextTxMsec a rec) = add_nextTxMsec a (add_nextTxMsec b rec).
Proof. rewrite !add_nextTxMsec_add. f_equal. lia. Qed.

(** *** send *)

(** send leaves alone what it is not about: an entry under another key than
    the packet's own (or under any key, when no ack is wanted) is neither
    created nor removed, and keeps its packet and its retry count. *)
Theorem send_keeps_other_entries (env : Collaborators) (p : meshtastic_MeshPacket)
    (s : RouterState) (k : GlobalPacketId) :
  want_ack p = false \/ k <> GlobalPacketId_of env p ->
  (pending s !! k = None -> pending (exec (send env p) s) !! k = None) /\
  (forall rec : PendingPacket,
     pending s !! k = Some rec ->
     exists rec' : PendingPacket,
       pending (exec (send env p) s) !! k = Some rec' /\
       packet rec' = packet rec /\
       numRetransmissions rec' = numRetransmissions rec).
Proof.
  intros C.
  assert (L : pending (exec (send_enroll env p) s) !! k = pending s !! k).
  { rewrite exec_send_enroll. destruct C as [W|N].
    - rewrite W. reflexivity.
    - destruct (want_ack p); [|reflexivity]. cbn. apply lookup_insert_ne. congruence. }
  split.
  - intros E. rewrite lookup_send, L, E. reflexivity.
  - intros rec E. rewrite lookup_send, L, E. cbn. eexists. split; [reflexivity|].
    unfold send_airtime_entry. destruct (negb _); split; reflexivity.
Qed.

Lemma send_keeps_other_entries_witness :
  (2, 7) <> GlobalPacketId_of sample_env sample_direct /\
  pending sample_foreign_state !! (2, 7) = Some sample_foreign_entry /\
  exists rec' : PendingPacket,
    pending (exec (send sample_env sample_direct) sample_foreign_state) !! (2, 7) = Some rec' /\
    packet rec' = packet sample_foreign_entry /\
    numRetransmissions rec' = numRetransmissions sample_foreign_entry.
Proof.
  assert (N : (2, 7) <> GlobalPacketId_of sample_env sample_direct) by discriminate.
  split; [exact N|]. split; [reflexivity|].
  exact (proj2 (send_keeps_other_entries sample_env sample_direct sample_foreign_state (2, 7)
                  (or_intror N)) sample_foreign_entry eq_refl).
Defined.

Lemma lookup_send_without_want_ack (env : Collaborators) (p : meshtastic_MeshPacket)
    (s : RouterState) (k : GlobalPacketId) :
  want_ack p = false ->
  pending (exec (send env p) s) !! k = send_airtime_entry env p k <$> pending s !! k.
Proof.
  intros W. rewrite lookup_send, exec_send_enroll, eval_send_enroll, W. reflexivity.
Qed.

(** Two sends that want no ack may come in either order: the pending table
    ends up the same. *)
Theorem send_without_want_ack_commute (env : Collaborators) (p q : meshtastic_MeshPacket)
    (s : RouterState) :
  want_ack p = false ->
  want_ack q = false ->
  pending (exec (send env q) (exec (send env p) s)) =
  pending (exec (send env p) (exec (send env q) s)).
Proof.
  intros Wp Wq. apply map_eq. intros k.
  rewrite !lookup_send_without_want_ack by assumption.
  destruct (pending s !! k) as [rec|]; [|reflexivity]. cbn. f_equal.
  unfold send_airtime_entry.
  destruct (negb (gp_id k =? id p)), (negb (gp_id k =? id q)); try reflexivity.
  apply add_nextTxMsec_comm.
Qed.

Lemma send_without_want_ack_commute_witness :
  want_ack sample_repeated = false /\ want_ack sample_from_phone = false /\
  pending (exec (send sample_env sample_from_phone)
             (exec (send sample_env sample_repeated) sample_foreign_state)) =
  pending (exec (send sample_env sample_repeated)
             (exec (send sample_env sample_from_phone) sample_foreign_state)).
Proof.
  split; [reflexivity|]. split; [reflexivity|].
  exact (send_without_want_ack_commute sample_env sample_repeated sample_from_phone
           sample_foreign_state eq_refl eq_refl).
Defined.

(** *** shouldFilterReceived *)

(** Whether a received packet is filtered is for the delegated router alone
    to say: shouldFilterReceived answers what the flooding router answers for
    a broadcast and what the next-hop router answers otherwise, asking with
    the packet as received, as the last thing it does. *)
Theorem shouldFilterReceived_delegates (env : Collaborators) (p : meshtastic_MeshPacket)
    (s : RouterState) :
  eval (shouldFilterReceived env p) s =
    (if to p =? NODENUM_BROADCAST
     then FloodingRouter_filter_result env p else NextHopRouter_filter_result env p) /\
  last (trace (exec (shouldFilterReceived env p) s)) = Some (delegate_filter_call p).
Proof.
  split.
  - unfold shouldFilterReceived, eval, bind.
    destruct (to p =? NODENUM_BROADCAST); reflexivity.
  - rewrite shouldFilterReceived_unfold. cbn [trace]. apply last_snoc.
Qed.

Lemma pending_heard_from_other (env : Collaborators) (p : meshtastic_MeshPacket)
    (s : RouterState) :
  from p <> getNodeNum env ->
  pending (exec (shouldFilterReceived env p) s) =
    add_nextTxMsec (getPacketTime env p) <$> pending s.
Proof.
  intros N. rewrite shouldFilterReceived_unfold. cbn [pending].
  rewrite (implicitAck_other_sender env p s N). reflexivity.
Qed.

Lemma no_sendAckNak_without_entry (env : Collaborators) (p : meshtastic_MeshPacket)
    (s : RouterState) :
  exec (implicitAck env p) s = s ->
  filter (fun e => is_sendAckNak e = true) (calls (shouldFilterReceived env p) s) = [].
Proof.
  intros F.
  rewrite (calls_shouldFilterReceived env p s []) by (rewrite F, app_nil_r; reflexivity).
  unfold delegate_filter_call.
  destruct (shouldResend env p), (to p =? NODENUM_BROADCAST); reflexivity.
Qed.

(** A packet whose sender field is not this node's number never counts as a
    rebroadcast of ours, even when its GlobalPacketId is pending (a packet
    from the phone has sender field zero and this node as origin): no ack is
    generated, no entry is removed, and every entry's deadline moves by the
    packet's airtime. *)
Theorem heard_from_other_sender (env : Collaborators) (p : meshtastic_MeshPacket)
    (s : RouterState) :
  from p <> getNodeNum env ->
  filter (fun e => is_sendAckNak e = true) (calls (shouldFilterReceived env p) s) = [] /\
  pending (exec (shouldFilterReceived env p) s) =
    add_nextTxMsec (getPacketTime env p) <$> pending s.
Proof.
  intros N. split.
  - apply no_sendAckNak_without_entry, implicitAck_other_sender, N.
  - apply pending_heard_from_other, N.
Qed.

Lemma heard_from_other_sender_witness :
  from sample_from_phone <> getNodeNum sample_env /\
  GlobalPacketId_of sample_env sample_from_phone = (1, 7) /\
  filter (fun e => is_sendAckNak e = true)
    (calls (shouldFilterReceived sample_env sample_from_phone) sample_pending_state) = [] /\
  pending (exec (shouldFilterReceived sample_env sample_from_phone) sample_pending_state)
    !! (1, 7) =
    Some {| packet := set_hop_limit 3 sample_broadcast; nextTxMsec := 5100;
            numRetransmissions := 3 |}.
Proof.
  assert (N : from sample_from_phone <> getNodeNum sample_env) by discriminate.
  pose proof (heard_from_other_sender sample_env sample_from_phone sample_pending_state N)
    as [A B].
  split; [exact N|]. split; [reflexivity|]. split; [exact A|].
  rewrite B. reflexivity.
Defined.

(** shouldFilterReceived removes at most the entry of the packet it hears:
    under every other key the entry stays, with its deadline moved by the
    packet's airtime, and no entry appears. *)
Theorem shouldFilterReceived_other_entries (env : Collaborators) (p : meshtastic_MeshPacket)
    (s : RouterState) (k : GlobalPacketId) :
  k <> (getFrom env p, id p) ->
  pending (exec (shouldFilterReceived env p) s) !! k =
    add_nextTxMsec (getPacketTime env p) <$> pending s !! k.
Proof.
  intros N. rewrite lookup_shouldFilterReceived. f_equal.
  destruct (Z.eqb_spec (from p) (getNodeNum env)) as [E|O].
  - destruct (pending s !! (getFrom env p, id p)) as [old|] eqn:L.
    + rewrite (implicitAck_found env p s old E L). cbn [pending].
      apply lookup_delete_ne. congruence.
    + rewrite (implicitAck_not_found env p s L). reflexivity.
  - rewrite (implicitAck_other_sender env p s O). reflexivity.
Qed.

Lemma shouldFilterReceived_other_entries_witness :
  (2, 7) <> (getFrom sample_env sample_rebroadcast, id sample_rebroadcast) /\
  pending (exec (shouldFilterReceived sample_env sample_rebroadcast) sample_foreign_state)
    !! (2, 7) =
    Some {| packet := packet sample_foreign_entry; nextTxMsec := 1100;
            numRetransmissions := 2 |}.
Proof.
  assert (N : (2, 7) <> (getFrom sample_env sample_rebroadcast, id sample_rebroadcast))
    by discriminate.
  split; [exact N|].
  exact (shouldFilterReceived_other_entries sample_env sample_rebroadcast
           sample_foreign_state (2, 7) N).
Defined.

Lemma own_entry_gone_after_heard (env : Collaborators) (p : meshtastic_MeshPacket)
    (s : RouterState) :
  from p = getNodeNum env ->
  pending (exec (shouldFilterReceived env p) s) !! (getFrom env p, id p) = None.
Proof.
  intros E. rewrite lookup_shouldFilterReceived.
  destruct (pending s !! (getFrom env p, id p)) as [old|] eqn:L.
  - rewrite (implicitAck_found env p s old E L). cbn [pending].
    rewrite lookup_delete_eq. reflexivity.
  - rewrite (implicitAck_not_found env p s L), L. reflexivity.
Qed.

(** The implicit ack is given once: when the same rebroadcast is heard a
    second time, no ack is generated for it any more. *)
Theorem implicit_ack_only_once (env : Collaborators) (p : meshtastic_MeshPacket)
    (s : RouterState) :
  from p = getNodeNum env ->
  filter (fun e => is_sendAckNak e = true)
    (calls (shouldFilterReceived env p) (exec (shouldFilterReceived env p) s)) = [].
Proof.
  intros E. apply no_sendAckNak_without_entry, implicitAck_not_found.
  apply own_entry_gone_after_heard, E.
Qed.

Lemma implicit_ack_only_once_witness :
  from sample_rebroadcast = getNodeNum sample_env /\
  filter (fun e => is_sendAckNak e = true)
    (calls (shouldFilterReceived sample_env sample_rebroadcast) sample_pending_state) =
    [Call_sendAckNak meshtastic_Routing_Error_NONE 1 7 0 None] /\
  filter (fun e => is_sendAckNak e = true)
    (calls (shouldFilterReceived sample_env sample_rebroadcast)
       (exec (shouldFilterReceived sample_env sample_rebroadcast) sample_pending_state)) = [].
Proof.
  split; [reflexivity|]. split; [vm_compute; reflexivity|].
  exact (implicit_ack_only_once sample_env sample_rebroadcast sample_pending_state eq_refl).
Defined.

(** Airtime adds up: after two packets of other senders were heard, every
    deadline has moved by the sum of their airtimes, in whichever order they
    came. *)
Theorem received_airtime_accumulates (env : Collaborators) (p q : meshtastic_MeshPacket)
    (s : RouterState) :
  from p <> getNodeNum env ->
  from q <> getNodeNum env ->
  pending (exec (shouldFilterReceived env q) (exec (shouldFilterReceived env p) s)) =
    add_nextTxMsec (getPacketTime env p + getPacketTime env q) <$> pending s /\
  pending (exec (shouldFilterReceived env q) (exec (shouldFilterReceived env p) s)) =
  pending (exec (shouldFilterReceived env p) (exec (shouldFilterReceived env q) s)).
Proof.
  intros Np Nq.
  assert (A : forall a b : meshtastic_MeshPacket,
             from a <> getNodeNum env -> from b <> getNodeNum env ->
             pending (exec (shouldFilterReceived env b) (exec (shouldFilterReceived env a) s)) =
               add_nextTxMsec (getPacketTime env a + getPacketTime env b) <$> pending s).
  { intros a b Na Nb. rewrite !pending_heard_from_other by assumption.
    rewrite <- map_fmap_compose. apply map_fmap_ext. intros k rec _. cbn.
    apply add_nextTxMsec_add. }
  split; [apply A; assumption|].
  rewrite !A by assumption. f_equal. f_equal. lia.
Qed.

Lemma received_airtime_accumulates_witness :
  from sample_repeated <> getNodeNum sample_env /\
  from sample_zero_hops <> getNodeNum sample_env /\
  pending (exec (shouldFilterReceived sample_env sample_zero_hops)
             (exec (shouldFilterReceived sample_env sample_repeated) sample_foreign_state))
    !! (2, 7) =
    Some {| packet := packet sample_foreign_entry; nextTxMsec := 1200;
            numRetransmissions := 2 |}.
Proof.
  assert (Np : from sample_repeated <> getNodeNum sample_env) by discriminate.
  assert (Nq : from sample_zero_hops <> getNodeNum sample_env) by discriminate.
  pose proof (received_airtime_accumulates sample_env sample_repeated sample_zero_hops
                sample_foreign_state Np Nq) as [A _].
  split; [exact Np|]. split; [exact Nq|]. rewrite A. reflexivity.
Defined.

(** *** From send to the ack *)

Lemma getFrom_local (env : Collaborators) (p : meshtastic_MeshPacket) :
  from p = 0 \/ from p = getNodeNum env -> getFrom env p = getNodeNum env.
Proof.
  intros [Z0|E]; unfold getFrom.
  - rewrite Z0. reflexivity.
  - rewrite E. destruct (getNodeNum env =? 0); reflexivity.
Qed.

Lemma channel_send_enroll (env : Collaborators) (p : meshtastic_MeshPacket) (s : RouterState) :
  channel (eval (send_enroll env p) s) = channel p.
Proof.
  rewrite eval_send_enroll. destruct (want_ack p && (hop_limit p =? 0)); reflexivity.
Qed.

(** A want_ack packet of this node is sent and then heard again with this
    node as sender, relayed by a neighbour: the sending side gets one
    no-error ack, for the packet's id and on the channel the packet was sent
    on, and the packet is no longer pending. *)
Theorem rebroadcast_acks_sent_packet (env : Collaborators) (p q : meshtastic_MeshPacket)
    (s : RouterState) :
  want_ack p = true ->
  from p = 0 \/ from p = getNodeNum env ->
  from q = getNodeNum env ->
  id q = id p ->
  let s1 := exec (send env p) s in
  filter (fun e => is_sendAckNak e = true) (calls (shouldFilterReceived env q) s1) =
    [Call_sendAckNak meshtastic_Routing_Error_NONE (getNodeNum env) (id p) (channel p) None] /\
  pending (exec (shouldFilterReceived env q) s1) !! (getNodeNum env, id p) = None.
Proof.
  intros W Lp Eq Iq s1.
  assert (Kp : GlobalPacketId_of env p = (getNodeNum env, id p)).
  { unfold GlobalPacketId_of. rewrite (getFrom_local env p Lp). reflexivity. }
  assert (Kq : (getFrom env q, id q) = (getNodeNum env, id p)).
  { rewrite (getFrom_local env q (or_intror Eq)), Iq. reflexivity. }
  pose proof (lookup_send_own env p s W) as L. cbv zeta in L. rewrite Kp, <- Kq in L.
  fold s1 in L. split.
  - pose proof (implicitAck_found env q s1 _ Eq L) as F.
    rewrite (calls_shouldFilterReceived env q s1 _ ltac:(rewrite F; reflexivity)).
    cbn [packet]. rewrite channel_send_enroll.
    injection Kq as -> ->.
    unfold delegate_filter_call.
    destruct (shouldResend env q), (to q =? NODENUM_BROADCAST); reflexivity.
  - rewrite <- Kq. apply own_entry_gone_after_heard, Eq.
Qed.

Lemma rebroadcast_acks_sent_packet_witness :
  want_ack sample_broadcast = true /\
  from sample_broadcast = getNodeNum sample_env /\
  from sample_rebroadcast = getNodeNum sample_env /\
  id sample_rebroadcast = id sample_broadcast /\
  filter (fun e => is_sendAckNak e = true)
    (calls (shouldFilterReceived sample_env sample_rebroadcast)
       (exec (send sample_env sample_broadcast) empty_state)) =
    [Call_sendAckNak meshtastic_Routing_Error_NONE 1 7 0 None].
Proof.
  split; [reflexivity|]. split; [reflexivity|]. split; [reflexivity|].
  split; [reflexivity|].
  exact (proj1 (rebroadcast_acks_sent_packet sample_env sample_broadcast sample_rebroadcast
                  empty_state eq_refl (or_intror eq_refl) eq_refl eq_refl)).
Defined.

(** A want_ack packet of this node is sent and then answered: a packet for
    this node whose request id is the sent packet's id, whether it is an ack
    or a nak, ends the pending retransmission. *)
Theorem answer_stops_sent_packet (env : Collaborators) (p r : meshtastic_MeshPacket)
    (c : option meshtastic_Routing) (s : RouterState) :
  want_ack p = true ->
  from p = 0 \/ from p = getNodeNum env ->
  id p <> 0 ->
  to r = getNodeNum env ->
  decoded_request_id r = id p ->
  is_Some (pending (exec (send env p) s) !! (getNodeNum env, id p)) /\
  pending (exec (sniffReceived env r c) (exec (send env p) s)) !! (getNodeNum env, id p) = None.
Proof.
  intros W Lp I T R. split.
  - pose proof (lookup_send_own env p s W) as L. cbv zeta in L.
    unfold GlobalPacketId_of in L. rewrite (getFrom_local env p Lp) in L.
    rewrite L. eexists. reflexivity.
  - rewrite (pending_sniffReceived env r c _ T), R.
    apply Z.eqb_neq in I. rewrite I. apply lookup_delete_eq.
Qed.

Lemma answer_stops_sent_packet_witness :
  want_ack sample_broadcast = true /\
  from sample_broadcast = getNodeNum sample_env /\
  id sample_broadcast <> 0 /\
  to sample_routing_for_us = getNodeNum sample_env /\
  decoded_request_id sample_routing_for_us = id sample_broadcast /\
  pending (exec (sniffReceived sample_env sample_routing_for_us
                   (Some (mkRouting meshtastic_Routing_Error_MAX_RETRANSMIT)))
             (exec (send sample_env sample_broadcast) empty_state)) !! (1, 7) = None.
Proof.
  assert (I : id sample_broadcast <> 0) by discriminate.
  split; [reflexivity|]. split; [reflexivity|]. split; [exact I|].
  split; [reflexivity|]. split; [reflexivity|].
  exact (proj2 (answer_stops_sent_packet sample_env sample_broadcast sample_routing_for_us
                  (Some (mkRouting meshtastic_Routing_Error_MAX_RETRANSMIT)) empty_state
                  eq_refl (or_intror eq_refl) I eq_refl eq_refl)).
Defined.

(** *** sniffReceived *)

Lemma calls_sniffReceived_not_for_us (env : Collaborators) (p : meshtastic_MeshPacket)
    (c : option meshtastic_Routing) (s : RouterState) :
  to p <> getNodeNum env ->
  calls (sniffReceived env p c) s = [delegate_sniff_call p c].
Proof.
  intros N. apply calls_app. rewrite (sniffReceived_not_for_us env p c s N). reflexivity.
Qed.

(** A packet for another node, or for everyone, is none of sniffReceived's
    business: it is handed to the delegated router and nothing else happens,
    whatever the packet asks for or reports. *)
Theorem sniffReceived_ignores_other_destinations (env : Collaborators)
    (p : meshtastic_MeshPacket) (c : option meshtastic_Routing) (s : RouterState) :
  to p <> getNodeNum env ->
  calls (sniffReceived env p c) s = [delegate_sniff_call p c] /\
  pending (exec (sniffReceived env p c) s) = pending s.
Proof.
  intros N. split.
  - apply calls_sniffReceived_not_for_us, N.
  - rewrite (sniffReceived_not_for_us env p c s N). reflexivity.
Qed.

Lemma sniffReceived_ignores_other_destinations_witness :
  to sample_direct <> getNodeNum sample_env /\ want_ack sample_direct = true /\
  calls (sniffReceived sample_env sample_direct None) sample_pending_state =
    [Call_NextHopRouter_sniffReceived sample_direct None].
Proof.
  assert (N : to sample_direct <> getNodeNum sample_env) by discriminate.
  split; [exact N|]. split; [reflexivity|].
  exact (proj1 (sniffReceived_ignores_other_destinations sample_env sample_direct None
                  sample_pending_state N)).
Defined.

(** Whatever sniffReceived does before, it ends by handing the packet and
    its routing information, both as received, to the flooding router for a
    broadcast and to the next-hop router otherwise. *)
Theorem sniffReceived_delegates (env : Collaborators) (p : meshtastic_MeshPacket)
    (c : option meshtastic_Routing) (s : RouterState) :
  last (trace (exec (sniffReceived env p c) s)) =
    Some (if to p =? NODENUM_BROADCAST
          then Call_FloodingRouter_sniffReceived p c
          else Call_NextHopRouter_sniffReceived p c).
Proof.
  destruct (Z.eq_dec (to p) (getNodeNum env)) as [E|N].
  - rewrite (sniffReceived_unfold env p c s E). cbn [trace]. apply last_snoc.
  - rewrite (sniffReceived_not_for_us env p c s N). cbn [trace]. apply last_snoc.
Qed.

(** No ack is sent for a packet that does not want one, nor for a packet
    that a module has already answered. *)
Theorem no_ack_unless_wanted_and_unanswered (env : Collaborators) (p : meshtastic_MeshPacket)
    (c : option meshtastic_Routing) (s : RouterState) :
  want_ack p = false \/ currentReply env = true ->
  filter (fun e => is_sendAckNak e = true) (calls (sniffReceived env p c) s) = [].
Proof.
  intros C. destruct (Z.eq_dec (to p) (getNodeNum env)) as [E|N].
  - rewrite (sendAckNak_calls_sniffReceived env p c s E).
    rewrite (calls_app (sniff_want_ack env p) s []); [reflexivity|].
    rewrite sniff_want_ack_unfold. cbn [trace].
    destruct C as [->| ->]; [reflexivity|]. rewrite andb_false_r. reflexivity.
  - rewrite (calls_sniffReceived_not_for_us env p c s N). unfold delegate_sniff_call.
    destruct (to p =? NODENUM_BROADCAST); reflexivity.
Qed.

Lemma no_ack_unless_wanted_and_unanswered_witness :
  want_ack sample_routing_for_us = false /\
  to sample_routing_for_us = getNodeNum sample_env /\
  filter (fun e => is_sendAckNak e = true)
    (calls (sniffReceived sample_env sample_routing_for_us None) empty_state) = [].
Proof.
  split; [reflexivity|]. split; [reflexivity|].
  exact (no_ack_unless_wanted_and_unanswered sample_env sample_routing_for_us None
           empty_state (or_introl eq_refl)).
Defined.

(** This node's NodeInfo goes out only in answer to a decoded routing packet
    for this node that reports PKI_UNKNOWN_PUBKEY, and only when this node's
    public key has 32 bytes. *)
Theorem node_info_only_on_pki_error (env : Collaborators) (p : meshtastic_MeshPacket)
    (c : option meshtastic_Routing) (s : RouterState) :
  filter (fun e => is_sendOurNodeInfo e = true) (calls (sniffReceived env p c) s) <> [] ->
  to p = getNodeNum env /\
  which_payload_variant p = meshtastic_MeshPacket_decoded_tag /\
  (exists r : meshtastic_Routing,
     c = Some r /\ error_reason r = meshtastic_Routing_Error_PKI_UNKNOWN_PUBKEY) /\
  owner_public_key_size env = 32.
Proof.
  destruct (Z.eq_dec (to p) (getNodeNum env)) as [E|N].
  - rewrite (calls_sniffReceived env p c s E), !filter_app, calls_sniff_pki.
    unfold calls. rewrite sniff_want_ack_unfold. cbn [trace]. rewrite drop_app_length.
    destruct (bool_decide (which_payload_variant p = meshtastic_MeshPacket_decoded_tag) &&
              has_error c meshtastic_Routing_Error_PKI_UNKNOWN_PUBKEY &&
              (owner_public_key_size env =? 32)) eqn:B.
    + intros _. apply andb_true_iff in B as [B K]. apply andb_true_iff in B as [D H].
      apply bool_decide_eq_true_1 in D. apply Z.eqb_eq in K.
      split; [exact E|]. split; [exact D|]. split; [|exact K].
      unfold has_error in H. destruct c as [r|]; [|discriminate H].
      exists r. split; [reflexivity|]. apply bool_decide_eq_true_1 in H. exact H.
    + clear B. intros H. exfalso. apply H. unfold delegate_sniff_call.
      destruct (want_ack p && negb (currentReply env)), (to p =? NODENUM_BROADCAST);
        try reflexivity;
        destruct (bool_decide (which_payload_variant p = meshtastic_MeshPacket_decoded_tag));
        try reflexivity;
        destruct (_ && _ && _); reflexivity.
  - rewrite (calls_sniffReceived_not_for_us env p c s N). unfold delegate_sniff_call.
    intros H. exfalso. apply H. destruct (to p =? NODENUM_BROADCAST); reflexivity.
Qed.

Lemma node_info_only_on_pki_error_witness :
  filter (fun e => is_sendOurNodeInfo e = true)
    (calls (sniffReceived sample_env sample_routing_for_us
              (Some (mkRouting meshtastic_Routing_Error_PKI_UNKNOWN_PUBKEY))) empty_state)
    <> [] /\
  to sample_routing_for_us = getNodeNum sample_env /\
  owner_public_key_size sample_env = 32.
Proof.
  assert (H : filter (fun e => is_sendOurNodeInfo e = true)
                (calls (sniffReceived sample_env sample_routing_for_us
                          (Some (mkRouting meshtastic_Routing_Error_PKI_UNKNOWN_PUBKEY)))
                   empty_state) <> []) by (vm_compute; discriminate).
  pose proof (node_info_only_on_pki_error sample_env sample_routing_for_us
                (Some (mkRouting meshtastic_Routing_Error_PKI_UNKNOWN_PUBKEY)) empty_state H)
    as (A & _ & _ & B).
  split; [exact H|]. split; [exact A|exact B].
Defined.

Lemma pending_sniffReceived_any (env : Collaborators) (p : meshtastic_MeshPacket)
    (c : option meshtastic_Routing) (s : RouterState) :
  pending (exec (sniffReceived env p c) s) =
    if (to p =? getNodeNum env) && negb (decoded_request_id p =? 0)
    then delete (getNodeNum env, decoded_request_id p) (pending s)
    else pending s.
Proof.
  destruct (Z.eqb_spec (to p) (getNodeNum env)) as [E|N].
  - rewrite (pending_sniffReceived env p c s E).
    destruct (decoded_request_id p =? 0); reflexivity.
  - rewrite (sniffReceived_not_for_us env p c s N). reflexivity.
Qed.

(** For the pending table an ack and a nak are the same thing: what
    sniffReceived does to the table does not depend on the routing
    information that comes with the packet. *)
Theorem sniffReceived_table_ignores_routing (env : Collaborators) (p : meshtastic_MeshPacket)
    (c c' : option meshtastic_Routing) (s : RouterState) :
  pending (exec (sniffReceived env p c) s) = pending (exec (sniffReceived env p c') s).
Proof. rewrite !pending_sniffReceived_any. reflexivity. Qed.

(** sniffReceived can only remove an entry that is keyed by this node and by
    the packet's request id: under every other key the table keeps what it
    had, deadline included, and nothing is added. *)
Theorem sniffReceived_other_entries (env : Collaborators) (p : meshtastic_MeshPacket)
    (c : option meshtastic_Routing) (s : RouterState) (k : GlobalPacketId) :
  k <> (getNodeNum env, decoded_request_id p) ->
  pending (exec (sniffReceived env p c) s) !! k = pending s !! k.
Proof.
  intros N. rewrite pending_sniffReceived_any.
  destruct (_ && _); [|reflexivity]. apply lookup_delete_ne. congruence.
Qed.

Lemma sniffReceived_other_entries_witness :
  (2, 7) <> (getNodeNum sample_env, decoded_request_id sample_routing_for_us) /\
  pending (exec (sniffReceived sample_env sample_routing_for_us None) sample_foreign_state)
    !! (2, 7) = Some sample_foreign_entry.
Proof.
  assert (N : (2, 7) <> (getNodeNum sample_env, decoded_request_id sample_routing_for_us))
    by discriminate.
  split; [exact N|].
  exact (sniffReceived_other_entries sample_env sample_routing_for_us None
           sample_foreign_state (2, 7) N).
Defined.

(** A second answer to the same request is harmless: once sniffReceived has
    seen a packet, seeing it again, as an ack or as a nak, leaves the table as
    it is. *)
Theorem sniffReceived_again_changes_nothing (env : Collaborators) (p : meshtastic_MeshPacket)
    (c c' : option meshtastic_Routing) (s : RouterState) :
  pending (exec (sniffReceived env p c') (exec (sniffReceived env p c) s)) =
  pending (exec (sniffReceived env p c) s).
Proof.
  rewrite !pending_sniffReceived_any.
  destruct (_ && _); [|reflexivity]. apply delete_id, lookup_delete_eq.
Qed.
